(** * Rifados: the ticket life cycle of the raffle application

    A shallow embedding of [app.py] (the routes [index], [apartar], [admin],
    [confirmar] and the start-up block that fills the table) and of
    [liberar_boletos.py] (the expiry sweep), with the properties of the
    ticket state machine proved over it.

    The two SQL tables are lists of rows in insertion order.  A request runs
    in a small state-and-exception monad over a database session: queries read
    the session's view of the tables, attribute assignments and inserts change
    that view, and only [commit] copies the view to the durable store.  Every
    access to the store is recorded in a trace.

    The store refuses a participant with a NULL column; the lengths of the
    string columns, which SQLite does not enforce, are not modelled. *)

From stdpp Require Import base decidable option list sorting strings gmap.

Local Open Scope Z_scope.
Local Open Scope string_scope.
Local Open Scope list_scope.

(** ** Dates

    A naive [datetime] is its number of microseconds since the epoch, the
    resolution of Python's [datetime] and [timedelta]; the bounds of the two
    types are not modelled. *)

Abbreviation datetime := Z (only parsing).

Definition timedelta (minutes : Z) : Z := minutes * 60 * 1000000.

(** ** The models (section 3 of app.py) *)

Module Participante.
Record t : Type := mk {
  id : Z;
  nombre : string;
  email : string;
  telefono : string
}.
End Participante.

Module Boleto.
Record t : Type := mk {
  id : Z;
  numero_boleto : Z;
  estado : string;
  fecha_apartado : option datetime;
  participante_id : option Z
}.

(** Attribute assignment on a mapped object. *)
Definition set_estado (v : string) (b : t) : t :=
  mk (id b) (numero_boleto b) v (fecha_apartado b) (participante_id b).
Definition set_participante_id (v : option Z) (b : t) : t :=
  mk (id b) (numero_boleto b) (estado b) (fecha_apartado b) v.
Definition set_fecha_apartado (v : option datetime) (b : t) : t :=
  mk (id b) (numero_boleto b) (estado b) v (participante_id b).
End Boleto.

#[global] Instance Participante_eq_dec : EqDecision Participante.t.
Proof. solve_decision. Defined.

#[global] Instance Boleto_eq_dec : EqDecision Boleto.t.
Proof. solve_decision. Defined.

(** The database: both tables, rows in insertion order. *)
Record Store : Type := mkStore {
  participantes : list Participante.t;
  boletos : list Boleto.t
}.

#[global] Instance Store_eq_dec : EqDecision Store.
Proof. solve_decision. Defined.

Definition empty_store : Store := mkStore [] [].

(** The value an autoincremented integer primary key takes on insert, as
    SQLite (the store the application falls back to) assigns it: one more
    than the largest key of the table, 1 in an empty table.  No route deletes
    a row, so a key is never given twice. *)
Definition next_id (ids : list Z) : Z := 1 + foldr Z.max 0 ids.

(** ** The database session *)

(** What reaches the store: a query, a write inside the open transaction,
    and a commit, with the state it makes durable. *)
Inductive db_event : Type :=
  | Select
  | Write
  | Commit (committed : Store).

#[global] Instance db_event_eq_dec : EqDecision db_event.
Proof. solve_decision. Defined.

Record Session : Type := mkSession {
  durable : Store;          (* what has been committed *)
  view : Store;             (* what the open transaction sees *)
  trace : list db_event     (* accesses to the store, oldest first *)
}.

Definition open_session (s : Store) : Session := mkSession s s [].

(** What a request can raise: [abort(code)] of Flask, and the store's
    refusal of a row that breaks a NOT NULL column. *)
Inductive exn : Type :=
  | abort (code : Z)
  | IntegrityError.

Inductive outcome (A : Type) : Type :=
  | Ok (a : A)
  | Raise (e : exn).
Arguments Ok {A} a.
Arguments Raise {A} e.

Definition M (A : Type) : Type := Session -> outcome A * Session.

Definition ret {A} (a : A) : M A := fun σ => (Ok a, σ).

Definition bind {A B} (m : M A) (k : A -> M B) : M B :=
  fun σ => match m σ with
           | (Ok a, σ') => k a σ'
           | (Raise e, σ') => (Raise e, σ')
           end.

Definition raise {A} (e : exn) : M A := fun σ => (Raise e, σ).

Notation "'do' x <- m ; k" := (bind m (fun x => k))
  (at level 10, x name, m at level 100, k at level 200).
Notation "'do_' m ; k" := (bind m (fun _ => k))
  (at level 10, m at level 100, k at level 200).

Definition log (e : db_event) (σ : Session) : Session :=
  mkSession (durable σ) (view σ) (trace σ ++ [e]).

(** [Model.query.filter(P).all()] *)
Definition query_all {A} (tabla : Store -> list A)
    (P : A -> Prop) `{!forall x, Decision (P x)} : M (list A) :=
  fun σ => (Ok (filter P (tabla (view σ))), log Select σ).

(** [Model.query.filter(P).first()] *)
Definition query_first {A} (tabla : Store -> list A)
    (P : A -> Prop) `{!forall x, Decision (P x)} : M (option A) :=
  fun σ => (Ok (head (filter P (tabla (view σ)))), log Select σ).

(** [Model.query.count()] *)
Definition query_count {A} (tabla : Store -> list A) : M nat :=
  fun σ => (Ok (length (tabla (view σ))), log Select σ).

(** [first_or_404] and [get_or_404] *)
Definition or_404 {A} (m : M (option A)) : M A :=
  do r <- m;
  match r with
  | Some a => ret a
  | None => raise (abort 404)
  end.

(** [UPDATE boletos SET ... WHERE id = pk] *)
Definition update_rows (pk : Z) (f : Boleto.t -> Boleto.t)
    (l : list Boleto.t) : list Boleto.t :=
  (fun b => if decide (Boleto.id b = pk) then f b else b) <$> l.

(** An attribute assignment on a ticket object reaches the table as an
    update of the row with the object's primary key. *)
Definition update_boleto (pk : Z) (f : Boleto.t -> Boleto.t) : M unit :=
  fun σ =>
    let v := view σ in
    (Ok tt, log Write (mkSession (durable σ)
                         (mkStore (participantes v) (update_rows pk f (boletos v)))
                         (trace σ))).

(** [db.session.add(Participante(...)); db.session.flush()]: the three
    columns are NOT NULL, the key is assigned by the store. *)
Definition add_participante (nombre email telefono : option string)
    : M Participante.t :=
  fun σ =>
    match nombre, email, telefono with
    | Some n, Some e, Some t =>
        let v := view σ in
        let p := Participante.mk (next_id (Participante.id <$> participantes v)) n e t in
        (Ok p, log Write (mkSession (durable σ)
                            (mkStore (participantes v ++ [p]) (boletos v)) (trace σ)))
    | _, _, _ => (Raise IntegrityError, log Write σ)
    end.

(** [db.session.add(Boleto(numero_boleto=i, estado='disponible'))]; the row
    is written when the session is flushed, in the order of the [add]s. *)
Definition add_boleto (numero_boleto : Z) (estado : string) : M unit :=
  fun σ =>
    let v := view σ in
    let b := Boleto.mk (next_id (Boleto.id <$> boletos v)) numero_boleto estado None None in
    (Ok tt, log Write (mkSession (durable σ)
                         (mkStore (participantes v) (boletos v ++ [b])) (trace σ))).

(** [db.session.commit()] *)
Definition commit : M unit :=
  fun σ => (Ok tt, log (Commit (view σ)) (mkSession (view σ) (view σ) (trace σ))).

(** A [for] loop over a list. *)
Fixpoint for_each {A} (l : list A) (body : A -> M unit) : M unit :=
  match l with
  | [] => ret tt
  | x :: l' => do_ body x; for_each l' body
  end.

(** One request, or one run of a script, against the store [s]: its result,
    the store it leaves and the trace of its accesses.  Whatever the session
    held uncommitted is dropped with the session. *)
Definition run {A} (m : M A) (s : Store) : outcome A * Store * list db_event :=
  let '(r, σ) := m (open_session s) in (r, durable σ, trace σ).

(** The states a trace made durable, oldest first. *)
Definition commits (tr : list db_event) : list Store :=
  omap (fun e => match e with Commit s => Some s | _ => None end) tr.

Definition result_of {A} (x : outcome A * Store * list db_event) : outcome A := x.1.1.
Definition store_of {A} (x : outcome A * Store * list db_event) : Store := x.1.2.
Definition trace_of {A} (x : outcome A * Store * list db_event) : list db_event := x.2.

(** ** What a route answers *)

Inductive Method : Type := GET | POST.

(** The three flashed messages, with their categories in the source:
    danger, warning and success. *)
Inductive Flash : Type :=
  | flash_apartado_por_otro
  | flash_ya_no_disponible (numero_boleto : Z)
  | flash_pago_confirmado (numero_boleto : Z).

Inductive Url : Type :=
  | url_index
  | url_admin (codigo_secreto : string)
  | url_whatsapp (admin : string) (numero_boleto : Z) (nombre email : option string).

Inductive Response : Type :=
  | redirect (flashed : option Flash) (destino : Url)
  | render_index (boletos : list Boleto.t)
  | render_apartar (boleto : Boleto.t)
  | render_admin (boletos : list Boleto.t) (codigo_secreto : string).

(** [ORDER BY numero_boleto] *)
Definition numero_le (a b : Boleto.t) : Prop :=
  Boleto.numero_boleto a <= Boleto.numero_boleto b.

#[global] Instance numero_le_dec a b : Decision (numero_le a b).
Proof. unfold numero_le. apply _. Defined.

(** [ORDER BY fecha_apartado], a NULL date before any other.  The order the
    store gives to rows of equal date is its own and is not modelled. *)
Definition fecha_le (a b : Boleto.t) : Prop :=
  match Boleto.fecha_apartado a, Boleto.fecha_apartado b with
  | None, _ => True
  | Some _, None => False
  | Some x, Some y => x <= y
  end.

#[global] Instance fecha_le_dec a b : Decision (fecha_le a b).
Proof.
  unfold fecha_le.
  destruct (Boleto.fecha_apartado a), (Boleto.fecha_apartado b); simpl; apply _.
Defined.

(** [fecha_apartado < limite] as the store evaluates it: never true of a
    NULL date. *)
Definition fecha_lt (f : option datetime) (limite : datetime) : Prop :=
  match f with
  | Some t => t < limite
  | None => False
  end.

#[global] Instance fecha_lt_dec f limite : Decision (fecha_lt f limite).
Proof. destruct f; simpl; apply _. Defined.

(** ** app.py *)

(** [index()] *)
Definition index : M Response :=
  do todos_los_boletos <- query_all boletos (fun _ => True);
  ret (render_index (merge_sort numero_le todos_los_boletos)).

Section App.

(** [os.environ] *)
Variable environ : gmap string string.

Definition WHATSAPP_ADMIN : string :=
  default "5560967913" (environ !! "WHATSAPP_ADMIN").

Definition ADMIN_SECRET_CODE : string :=
  default "admin123" (environ !! "ADMIN_SECRET_CODE").

(** [apartar(numero_boleto)]; [form] is [request.form] and [utcnow] the
    clock the request reads.  The lookup is that of a number the store can
    bind (see [sqlite_integer] below): a larger one raises in the driver. *)
Definition apartar (method : Method) (form : gmap string string)
    (utcnow : datetime) (numero_boleto : Z) : M Response :=
  do boleto <- or_404 (query_first boletos
                         (fun b => Boleto.numero_boleto b = numero_boleto));
  match method with
  | POST =>
      if decide (Boleto.estado boleto <> "disponible") then
        ret (redirect (Some flash_apartado_por_otro) url_index)
      else
        let nombre := form !! "nombre" in
        let email := form !! "email" in
        let telefono := form !! "telefono" in
        do existente <- query_first participantes
                          (fun p => Some (Participante.email p) = email);
        do participante <-
          match existente with
          | Some p => ret p
          | None => add_participante nombre email telefono
          end;
        do_ update_boleto (Boleto.id boleto) (Boleto.set_estado "apartado");
        do_ update_boleto (Boleto.id boleto)
              (Boleto.set_participante_id (Some (Participante.id participante)));
        do_ update_boleto (Boleto.id boleto)
              (Boleto.set_fecha_apartado (Some utcnow));
        do_ commit;
        ret (redirect None
               (url_whatsapp WHATSAPP_ADMIN (Boleto.numero_boleto boleto) nombre email))
  | GET =>
      if decide (Boleto.estado boleto <> "disponible") then
        ret (redirect (Some (flash_ya_no_disponible numero_boleto)) url_index)
      else
        ret (render_apartar boleto)
  end.

(** The start-up block, for [cantidad] tickets; the source runs it with
    100.  ([db.create_all()] before it creates the tables that are missing
    and touches no row.) *)
Definition bootstrap (cantidad : Z) : M unit :=
  do n <- query_count boletos;
  if decide (n = 0%nat) then
    do_ for_each (seqZ 0 cantidad) (fun i => add_boleto i "disponible");
    commit
  else
    ret tt.

Definition startup : M unit := bootstrap 100.

(** [admin(codigo_secreto)] *)
Definition admin (codigo_secreto : string) : M Response :=
  do_ (if decide (codigo_secreto <> ADMIN_SECRET_CODE)
       then raise (abort 403) else ret tt);
  do boletos_apartados <- query_all boletos
                            (fun b => Boleto.estado b = "apartado");
  ret (render_admin (merge_sort fecha_le boletos_apartados) codigo_secreto).

(** [confirmar(boleto_id, codigo_secreto)]; as for [apartar], the lookup is
    that of a key the store can bind. *)
Definition confirmar (boleto_id : Z) (codigo_secreto : string) : M Response :=
  do_ (if decide (codigo_secreto <> ADMIN_SECRET_CODE)
       then raise (abort 403) else ret tt);
  do boleto <- or_404 (query_first boletos (fun b => Boleto.id b = boleto_id));
  do_ update_boleto (Boleto.id boleto) (Boleto.set_estado "vendido");
  do_ commit;
  ret (redirect (Some (flash_pago_confirmado (Boleto.numero_boleto boleto)))
         (url_admin codigo_secreto)).

End App.

(** ** liberar_boletos.py *)

Definition TIEMPO_LIMITE_MINUTOS : Z := 120.

(** The body of the loop: the three columns are reset.  (The line it prints
    first formats the date of the ticket, which is not NULL in a row the
    query selected.) *)
Definition liberar (boleto : Boleto.t) : M unit :=
  do_ update_boleto (Boleto.id boleto) (Boleto.set_estado "disponible");
  do_ update_boleto (Boleto.id boleto) (Boleto.set_participante_id None);
  update_boleto (Boleto.id boleto) (Boleto.set_fecha_apartado None).

(** The sweep for a limit of [minutos]; the value is the count it prints. *)
Definition liberar_con_limite (minutos : Z) (utcnow : datetime) : M nat :=
  let limite_de_tiempo := utcnow - timedelta minutos in
  do boletos_a_liberar <-
    query_all boletos
      (fun b => Boleto.estado b = "apartado"
                /\ fecha_lt (Boleto.fecha_apartado b) limite_de_tiempo);
  let cantidad_liberados := length boletos_a_liberar in
  if decide (0 < cantidad_liberados)%nat then
    do_ for_each boletos_a_liberar liberar;
    do_ commit;
    ret cantidad_liberados
  else
    ret cantidad_liberados.

Definition liberar_boletos_expirados (utcnow : datetime) : M nat :=
  liberar_con_limite TIEMPO_LIMITE_MINUTOS utcnow.

(** ** The operations of the life cycle

    Every way the store is reached: the four routes with whatever the
    request carries, the sweep and the start-up block.  (The sweep script
    imports the application, so a run of it is the start-up block followed by
    the sweep.) *)

Inductive Request : Type :=
  | req_index
  | req_apartar (method : Method) (form : gmap string string)
                (utcnow : datetime) (numero_boleto : Z)
  | req_admin (codigo_secreto : string)
  | req_confirmar (boleto_id : Z) (codigo_secreto : string)
  | run_liberar (utcnow : datetime)
  | run_startup.

Definition step (environ : gmap string string) (r : Request) (s : Store) : Store :=
  match r with
  | req_index => store_of (run index s)
  | req_apartar method form utcnow n => store_of (run (apartar environ method form utcnow n) s)
  | req_admin codigo => store_of (run (admin environ codigo) s)
  | req_confirmar i codigo => store_of (run (confirmar environ i codigo) s)
  | run_liberar utcnow => store_of (run (liberar_boletos_expirados utcnow) s)
  | run_startup => store_of (run (startup) s)
  end.

Definition steps (environ : gmap string string) (rs : list Request) (s : Store) : Store :=
  foldl (fun s r => step environ r s) s rs.

(** The contact details a reservation carries, and the form that submits
    them. *)
Record ParticipantInfo : Type := mkInfo {
  info_name : string;
  info_email : string;
  info_phone : string
}.

Definition form_of (info : ParticipantInfo) : gmap string string :=
  {[ "nombre" := info_name info;
     "email" := info_email info;
     "telefono" := info_phone info ]}.

Definition Reserve (environ : gmap string string) (numero_boleto : Z)
    (info : ParticipantInfo) (utcnow : datetime) (s : Store)
    : outcome Response * Store * list db_event :=
  run (apartar environ POST (form_of info) utcnow numero_boleto) s.

(** How the caller of Reserve tells its outcomes apart. *)
Inductive ReserveResult : Type :=
  | Reserved
  | Conflict
  | NotFound
  | Failed.

Definition reserve_result (r : outcome Response) : ReserveResult :=
  match r with
  | Ok (redirect None (url_whatsapp _ _ _ _)) => Reserved
  | Ok (redirect (Some flash_apartado_por_otro) url_index) => Conflict
  | Raise (abort code) => if decide (code = 404) then NotFound else Failed
  | _ => Failed
  end.

(** The rows the three transitions write. *)
Definition fila_apartada (pid : Z) (utcnow : datetime) (b : Boleto.t) : Boleto.t :=
  Boleto.mk (Boleto.id b) (Boleto.numero_boleto b) "apartado" (Some utcnow) (Some pid).

Definition fila_vendida (b : Boleto.t) : Boleto.t :=
  Boleto.mk (Boleto.id b) (Boleto.numero_boleto b) "vendido"
            (Boleto.fecha_apartado b) (Boleto.participante_id b).

Definition fila_liberada (b : Boleto.t) : Boleto.t :=
  Boleto.mk (Boleto.id b) (Boleto.numero_boleto b) "disponible" None None.

(** The reservation of [b] has expired at [utcnow] for a limit of
    [minutos]. *)
Definition expirado (minutos : Z) (utcnow : datetime) (b : Boleto.t) : Prop :=
  Boleto.estado b = "apartado" /\
  exists t, Boleto.fecha_apartado b = Some t /\ t < utcnow - timedelta minutos.

#[global] Instance expirado_dec minutos utcnow b : Decision (expirado minutos utcnow b).
Proof.
  unfold expirado. destruct (Boleto.fecha_apartado b) as [t|].
  - destruct (decide (Boleto.estado b = "apartado"
                      /\ t < utcnow - timedelta minutos)) as [H|H].
    + left. destruct H. eauto.
    + right. intros [? (t' & [= <-] & ?)]. tauto.
  - right. intros [? (t' & [=] & ?)].
Defined.

(** ** Well-formed stores

    The constraints the schema declares: the primary keys, and the columns
    declared [unique=True]. *)
Record wf (s : Store) : Prop := mk_wf {
  wf_boleto_id : NoDup (Boleto.id <$> boletos s);
  wf_numero_boleto : NoDup (Boleto.numero_boleto <$> boletos s);
  wf_participante_id : NoDup (Participante.id <$> participantes s);
  wf_email : NoDup (Participante.email <$> participantes s)
}.

#[global] Instance wf_dec s : Decision (wf s).
Proof.
  destruct (decide (NoDup (Boleto.id <$> boletos s)
                    /\ NoDup (Boleto.numero_boleto <$> boletos s)
                    /\ NoDup (Participante.id <$> participantes s)
                    /\ NoDup (Participante.email <$> participantes s))) as [H|H].
  - left. destruct H as (? & ? & ? & ?). by constructor.
  - right. intros []. tauto.
Defined.

(** ** The effect of the loops and of the operations *)

(** The rows after the loop of the sweep over the selected tickets [sel]. *)
Definition liberar_filas (sel : list Boleto.t) (l : list Boleto.t) : list Boleto.t :=
  (fun b => if decide (Boleto.id b ∈ Boleto.id <$> sel) then fila_liberada b else b) <$> l.

(** The row written for the number [i] when the table starts empty. *)
Definition fila_nueva (i : Z) : Boleto.t :=
  Boleto.mk (i + 1) i "disponible" None None.

(** The transitions of the store: whatever a request or a script does to
    the durable store is one of these changes, or none. *)
Inductive transition (s : Store) : Store -> Prop :=
  | t_none :
      transition s s
  | t_reserve_known b p utcnow :
      b ∈ boletos s -> Boleto.estado b = "disponible" ->
      p ∈ participantes s ->
      transition s
        (mkStore (participantes s)
           (update_rows (Boleto.id b) (fila_apartada (Participante.id p) utcnow) (boletos s)))
  | t_reserve_new b p utcnow :
      b ∈ boletos s -> Boleto.estado b = "disponible" ->
      Participante.id p ∉ Participante.id <$> participantes s ->
      Participante.email p ∉ Participante.email <$> participantes s ->
      transition s
        (mkStore (participantes s ++ [p])
           (update_rows (Boleto.id b) (fila_apartada (Participante.id p) utcnow) (boletos s)))
  | t_confirm b :
      b ∈ boletos s ->
      transition s
        (mkStore (participantes s) (update_rows (Boleto.id b) fila_vendida (boletos s)))
  | t_sweep sel :
      transition s (mkStore (participantes s) (liberar_filas sel (boletos s)))
  | t_bootstrap cantidad :
      boletos s = [] ->
      transition s (mkStore (participantes s) (fila_nueva <$> seqZ 0 cantidad)).

(** ** The invariants of a ticket *)

(** A reserved ticket is exactly one that carries a date and an owner. *)
Definition reserved_iff_stamped (b : Boleto.t) : Prop :=
  Boleto.estado b = "apartado" <->
  Boleto.fecha_apartado b <> None /\ Boleto.participante_id b <> None.

(** What the transitions keep of it: a reserved ticket carries both, and a
    ticket that carries both is reserved or sold. *)
Definition stamped_ok (b : Boleto.t) : Prop :=
  (Boleto.estado b = "apartado" ->
   Boleto.fecha_apartado b <> None /\ Boleto.participante_id b <> None) /\
  (Boleto.fecha_apartado b <> None /\ Boleto.participante_id b <> None ->
   Boleto.estado b = "apartado" \/ Boleto.estado b = "vendido").

(** A ticket has an owner exactly when it is reserved or sold. *)
Definition owner_iff_taken (b : Boleto.t) : Prop :=
  Boleto.participante_id b <> None <->
  Boleto.estado b = "apartado" \/ Boleto.estado b = "vendido".

#[global] Instance reserved_iff_stamped_dec b : Decision (reserved_iff_stamped b).
Proof. unfold reserved_iff_stamped. apply _. Defined.

#[global] Instance stamped_ok_dec b : Decision (stamped_ok b).
Proof. unfold stamped_ok. apply _. Defined.

#[global] Instance owner_iff_taken_dec b : Decision (owner_iff_taken b).
Proof. unfold owner_iff_taken. apply _. Defined.

(** ** Scenarios *)

Definition ana : ParticipantInfo := mkInfo "Ana" "ana@x.com" "555".

(** Start-up, then ticket 42 is reserved at time 1000 and its sale
    confirmed. *)
Definition venta_del_42 : list Request :=
  [ run_startup;
    req_apartar POST (form_of ana) 1000 42;
    req_confirmar 43 "admin123" ].

(** Start-up, then the sale of ticket 0, which nobody reserved, is
    confirmed. *)
Definition venta_sin_apartado : list Request :=
  [ run_startup; req_confirmar 1 "admin123" ].

(** Start-up, then ticket 42 is reserved at time 1000, the sweep releases
    it 121 minutes later, and the administrator, whose page still lists the
    ticket, confirms its sale. *)
Definition venta_tras_expirar : list Request :=
  [ run_startup;
    req_apartar POST (form_of ana) 1000 42;
    run_liberar (1000 + timedelta 121);
    req_confirmar 43 "admin123" ].

(** Four tickets at 200 minutes past the epoch: one reserved 121 minutes
    ago, one reserved a minute ago, one sold long ago, one free. *)
Definition cuatro_boletos : Store :=
  mkStore
    [ Participante.mk 1 "Ana" "ana@x.com" "555" ]
    [ Boleto.mk 1 0 "apartado" (Some (timedelta 79)) (Some 1);
      Boleto.mk 2 1 "apartado" (Some (timedelta 199)) (Some 1);
      Boleto.mk 3 2 "vendido" (Some (timedelta 5)) (Some 1);
      Boleto.mk 4 3 "disponible" None None ].

(** ** The effect of Reserve *)

(** The participant [p] of a reservation with the details [info], and the
    table [ps'] it leaves from [ps]: the participant that has the email, or
    else a new row with the next key and the submitted details. *)
Definition participant_for (info : ParticipantInfo)
    (ps ps' : list Participante.t) (p : Participante.t) : Prop :=
  (p ∈ ps /\ Participante.email p = info_email info /\ ps' = ps)
  \/ ((forall q, q ∈ ps -> Participante.email q <> info_email info)
      /\ p = Participante.mk (next_id (Participante.id <$> ps))
               (info_name info) (info_email info) (info_phone info)
      /\ ps' = ps ++ [p]).

(** The store [s'] is [s] after the reservation of the ticket [b] with the
    details [info] at [utcnow]: the participant is looked up or created by
    email, and the row [b], alone, has become 'apartado' with that
    participant and that date. *)
Definition reserve_applied (b : Boleto.t) (info : ParticipantInfo)
    (utcnow : datetime) (s s' : Store) : Prop :=
  exists p,
    participant_for info (participantes s) (participantes s') p
    /\ boletos s'
       = (fun x => if decide (x = b)
                   then Boleto.mk (Boleto.id b) (Boleto.numero_boleto b) "apartado"
                          (Some utcnow) (Some (Participante.id p))
                   else x) <$> boletos s.

(** ** Further vocabulary: whole operations, relations between rows *)

(** The store and the trace that one operation leaves. *)
Definition exec (environ : gmap string string) (r : Request) (s : Store)
    : Store * list db_event :=
  match r with
  | req_index => (store_of (run index s), trace_of (run index s))
  | req_apartar method form utcnow n =>
      (store_of (run (apartar environ method form utcnow n) s),
       trace_of (run (apartar environ method form utcnow n) s))
  | req_admin codigo =>
      (store_of (run (admin environ codigo) s), trace_of (run (admin environ codigo) s))
  | req_confirmar i codigo =>
      (store_of (run (confirmar environ i codigo) s),
       trace_of (run (confirmar environ i codigo) s))
  | run_liberar utcnow =>
      (store_of (run (liberar_boletos_expirados utcnow) s),
       trace_of (run (liberar_boletos_expirados utcnow) s))
  | run_startup => (store_of (run startup s), trace_of (run startup s))
  end.

(** What an operation does to the durable store, with the trace it leaves:
    nothing, and then it committed nothing; or one of the four changes, made
    durable by the only commit of the trace.  The sweep rewrites rows it
    selected among the reserved ones. *)
Inductive effect (s : Store) : Store -> list db_event -> Prop :=
  | e_none tr :
      commits tr = [] -> effect s s tr
  | e_reserve b p ps' utcnow s' tr :
      b ∈ boletos s -> Boleto.estado b = "disponible" ->
      (ps' = participantes s /\ p ∈ participantes s)
      \/ (ps' = participantes s ++ [p]
          /\ (Participante.id p ∉ Participante.id <$> participantes s)
          /\ (Participante.email p ∉ Participante.email <$> participantes s)) ->
      s' = mkStore ps'
             (update_rows (Boleto.id b) (fila_apartada (Participante.id p) utcnow)
                (boletos s)) ->
      commits tr = [s'] -> effect s s' tr
  | e_confirm b s' tr :
      b ∈ boletos s ->
      s' = mkStore (participantes s) (update_rows (Boleto.id b) fila_vendida (boletos s)) ->
      commits tr = [s'] -> effect s s' tr
  | e_sweep sel s' tr :
      Forall (fun x => x ∈ boletos s /\ Boleto.estado x = "apartado") sel ->
      s' = mkStore (participantes s) (liberar_filas sel (boletos s)) ->
      commits tr = [s'] -> effect s s' tr
  | e_bootstrap cantidad s' tr :
      boletos s = [] ->
      s' = mkStore (participantes s) (fila_nueva <$> seqZ 0 cantidad) ->
      commits tr = [s'] -> effect s s' tr.

(** [participante.boletos], the relationship the model of the participants
    declares: the tickets whose foreign key is the participant's key. *)
Definition Participante_boletos (p : Participante.t) (s : Store) : list Boleto.t :=
  filter (fun b => Boleto.participante_id b = Some (Participante.id p)) (boletos s).

(** The foreign key of a ticket, when it is not NULL, is the key of a
    participant. *)
Definition fk_ok (ps : list Participante.t) (b : Boleto.t) : Prop :=
  match Boleto.participante_id b with
  | Some i => i ∈ Participante.id <$> ps
  | None => True
  end.

#[global] Instance fk_ok_dec ps b : Decision (fk_ok ps b).
Proof. unfold fk_ok. destruct (Boleto.participante_id b); apply _. Defined.

(** The status is one of the three the model of the tickets names, a free
    ticket has neither date nor participant, and the date is NULL exactly
    when the participant is. *)
Definition ticket_coherent (b : Boleto.t) : Prop :=
  (Boleto.estado b = "disponible" \/ Boleto.estado b = "apartado"
   \/ Boleto.estado b = "vendido")
  /\ (Boleto.estado b = "disponible" ->
      Boleto.fecha_apartado b = None /\ Boleto.participante_id b = None)
  /\ (Boleto.fecha_apartado b = None <-> Boleto.participante_id b = None).

#[global] Instance ticket_coherent_dec b : Decision (ticket_coherent b).
Proof. unfold ticket_coherent. apply _. Defined.

(** No event of the trace is a write or a commit. *)
Definition read_only (tr : list db_event) : Prop := Forall (fun e => e = Select) tr.

#[global] Instance numero_le_total : Total numero_le.
Proof. intros a b. unfold numero_le. lia. Defined.

#[global] Instance fecha_le_total : Total fecha_le.
Proof.
  intros a b. unfold fecha_le.
  destruct (Boleto.fecha_apartado a), (Boleto.fecha_apartado b); try tauto. lia.
Defined.

(** A form with no field at all, and one with only the email. *)
Definition form_vacio : gmap string string := ∅.

Definition form_solo_email (e : string) : gmap string string := {[ "email" := e ]}.

(** The integers the store binds as the parameter of a query: the 64-bit
    INTEGER of SQLite.  For a ticket number or a key outside them the lookup
    of the routes raises OverflowError in the driver, where the routes above
    find no row; what a theorem says of an answer 404, it says of a number
    in this range. *)
Definition sqlite_integer (n : Z) : Prop := - 2 ^ 63 <= n < 2 ^ 63.

#[global] Instance sqlite_integer_dec n : Decision (sqlite_integer n).
Proof. unfold sqlite_integer. apply _. Defined.

(** ** Facts about queries and updates *)

Section ListFacts.
Context {A : Type}.

Lemma head_filter_None (P : A -> Prop) `{!forall x, Decision (P x)} (l : list A) :
  head (filter P l) = None <-> forall x, x ∈ l -> ~ P x.
Proof.
  rewrite head_None. split.
  - intros Hnil x Hx HP. by eapply filter_nil_not_elem_of.
  - intros Hall. induction l as [|a l IH]; [done|].
    rewrite filter_cons. destruct (decide (P a)) as [Ha|Ha].
    + exfalso. apply (Hall a); [left | done].
    + apply IH. intros x Hx. apply Hall. by right.
Qed.

Lemma head_filter_elem (P : A -> Prop) `{!forall x, Decision (P x)} (l : list A) x :
  head (filter P l) = Some x -> x ∈ l /\ P x.
Proof.
  intros Hh. apply head_Some_elem_of in Hh.
  apply list_elem_of_filter in Hh. tauto.
Qed.

Lemma NoDup_fmap_eq {B} (f : A -> B) (l : list A) x y :
  NoDup (f <$> l) -> x ∈ l -> y ∈ l -> f x = f y -> x = y.
Proof.
  induction l as [|a l IH]; intros Hnd Hx Hy Hxy.
  - by apply elem_of_nil in Hx.
  - rewrite fmap_cons in Hnd. apply NoDup_cons in Hnd as [Ha Hnd].
    apply elem_of_cons in Hx as [->|Hx], Hy as [->|Hy]; auto.
    + exfalso. apply Ha. rewrite Hxy. by apply list_elem_of_fmap_2.
    + exfalso. apply Ha. rewrite <- Hxy. by apply list_elem_of_fmap_2.
Qed.

(** A query on a unique column finds the row that has the value. *)
Lemma head_filter_unique {B} `{EqDecision B} (f : A -> B) (l : list A) x :
  NoDup (f <$> l) -> x ∈ l ->
  head (filter (fun y => f y = f x) l) = Some x.
Proof.
  intros Hnd Hx.
  destruct (head (filter (fun y => f y = f x) l)) as [y|] eqn:E.
  - apply head_filter_elem in E as [Hy Hyx].
    f_equal. by apply (NoDup_fmap_eq f l).
  - exfalso. by apply (proj1 (head_filter_None _ _) E x).
Qed.
End ListFacts.

Lemma update_rows_ids pk f l :
  (forall b, Boleto.id (f b) = Boleto.id b) ->
  Boleto.id <$> update_rows pk f l = Boleto.id <$> l.
Proof.
  intros Hf. unfold update_rows. rewrite <- list_fmap_compose.
  apply list_fmap_ext. intros i b _. simpl. by destruct (decide _).
Qed.

Lemma update_rows_numeros pk f l :
  (forall b, Boleto.numero_boleto (f b) = Boleto.numero_boleto b) ->
  Boleto.numero_boleto <$> update_rows pk f l = Boleto.numero_boleto <$> l.
Proof.
  intros Hf. unfold update_rows. rewrite <- list_fmap_compose.
  apply list_fmap_ext. intros i b _. simpl. by destruct (decide _).
Qed.

Lemma update_rows_twice pk f g l :
  (forall b, Boleto.id (f b) = Boleto.id b) ->
  update_rows pk g (update_rows pk f l) = update_rows pk (g ∘ f) l.
Proof.
  intros Hf. unfold update_rows. rewrite <- list_fmap_compose.
  apply list_fmap_ext. intros i b _. simpl.
  destruct (decide (Boleto.id b = pk)) as [E|E].
  - rewrite decide_True; [done | by rewrite Hf].
  - by rewrite decide_False.
Qed.

Lemma update_rows_ext pk f g l :
  (forall b, f b = g b) -> update_rows pk f l = update_rows pk g l.
Proof.
  intros Hfg. unfold update_rows. apply list_fmap_ext. intros i b _.
  simpl. destruct (decide _); [apply Hfg | done].
Qed.

(** With a primary key, the update of [b]'s key rewrites the row [b] and no
    other. *)
Lemma update_rows_NoDup f l b :
  NoDup (Boleto.id <$> l) -> b ∈ l ->
  update_rows (Boleto.id b) f l = (fun x => if decide (x = b) then f x else x) <$> l.
Proof.
  intros Hnd Hb. unfold update_rows. apply list_fmap_ext. intros i x Hx.
  apply list_elem_of_lookup_2 in Hx.
  destruct (decide (Boleto.id x = Boleto.id b)) as [E|E].
  - rewrite decide_True; [done|]. by apply (NoDup_fmap_eq Boleto.id l).
  - rewrite decide_False; [done|]. by intros ->.
Qed.

Lemma update_rows_elem pk f l x :
  x ∈ update_rows pk f l ->
  exists b, b ∈ l /\ x = (if decide (Boleto.id b = pk) then f b else b).
Proof.
  unfold update_rows. intros H. apply list_elem_of_fmap in H as (b & -> & Hb). eauto.
Qed.

Lemma update_rows_elem_of pk f l b :
  b ∈ l -> Boleto.id b = pk -> f b ∈ update_rows pk f l.
Proof.
  intros Hb Hpk. unfold update_rows.
  apply (list_elem_of_fmap_2' _ _ b); [done|]. by rewrite decide_True.
Qed.

Lemma next_id_fresh ids : next_id ids ∉ ids.
Proof.
  assert (H : forall x, x ∈ ids -> x <= foldr Z.max 0 ids).
  { induction ids as [|a ids IH]; intros x Hx.
    - by apply elem_of_nil in Hx.
    - simpl. apply elem_of_cons in Hx as [->|Hx]; [lia|].
      specialize (IH x Hx). lia. }
  intros Hin. apply H in Hin. unfold next_id in Hin. lia.
Qed.

(** ** What one run of each operation does *)

Ltac unfold_monad :=
  unfold run, or_404, bind, ret, raise, query_first, query_all, query_count,
    update_boleto, add_participante, add_boleto, commit, log, open_session;
  cbn [durable view trace participantes boletos app fst snd].

Section Runs.
Variable environ : gmap string string.

Lemma fila_apartada_sets pid utcnow (b : Boleto.t) :
  (Boleto.set_fecha_apartado (Some utcnow)
     ∘ (Boleto.set_participante_id (Some pid) ∘ Boleto.set_estado "apartado")) b
  = fila_apartada pid utcnow b.
Proof. reflexivity. Qed.

Lemma run_apartar_404 method form utcnow n s :
  head (filter (fun b => Boleto.numero_boleto b = n) (boletos s)) = None ->
  run (apartar environ method form utcnow n) s = (Raise (abort 404), s, [Select]).
Proof.
  intros Hq. unfold apartar. unfold_monad. by rewrite Hq.
Qed.

Lemma run_apartar_GET form utcnow n s b :
  head (filter (fun b => Boleto.numero_boleto b = n) (boletos s)) = Some b ->
  run (apartar environ GET form utcnow n) s =
    (Ok (if decide (Boleto.estado b <> "disponible")
         then redirect (Some (flash_ya_no_disponible n)) url_index
         else render_apartar b), s, [Select]).
Proof.
  intros Hq. unfold apartar. unfold_monad. rewrite Hq.
  by destruct (decide _).
Qed.

Lemma run_apartar_conflict form utcnow n s b :
  head (filter (fun b => Boleto.numero_boleto b = n) (boletos s)) = Some b ->
  Boleto.estado b <> "disponible" ->
  run (apartar environ POST form utcnow n) s =
    (Ok (redirect (Some flash_apartado_por_otro) url_index), s, [Select]).
Proof.
  intros Hq Hne. unfold apartar. unfold_monad. rewrite Hq.
  by rewrite decide_True.
Qed.

Lemma run_apartar_existente form utcnow n s b p :
  head (filter (fun b => Boleto.numero_boleto b = n) (boletos s)) = Some b ->
  Boleto.estado b = "disponible" ->
  head (filter (fun p => Some (Participante.email p) = form !! "email")
          (participantes s)) = Some p ->
  run (apartar environ POST form utcnow n) s =
    (Ok (redirect None (url_whatsapp (WHATSAPP_ADMIN environ) (Boleto.numero_boleto b)
                          (form !! "nombre") (form !! "email"))),
     mkStore (participantes s)
             (update_rows (Boleto.id b) (fila_apartada (Participante.id p) utcnow)
                (boletos s)),
     [Select; Select; Write; Write; Write;
      Commit (mkStore (participantes s)
                (update_rows (Boleto.id b) (fila_apartada (Participante.id p) utcnow)
                   (boletos s)))]).
Proof.
  intros Hq Hd Hp. unfold apartar. unfold_monad. rewrite Hq.
  rewrite decide_False by (by intros ?). unfold_monad. rewrite Hp.
  rewrite !update_rows_twice by done.
  by erewrite update_rows_ext by apply fila_apartada_sets.
Qed.

Lemma run_apartar_nuevo form utcnow n s b nom em tel :
  head (filter (fun b => Boleto.numero_boleto b = n) (boletos s)) = Some b ->
  Boleto.estado b = "disponible" ->
  head (filter (fun p => Some (Participante.email p) = form !! "email")
          (participantes s)) = None ->
  form !! "nombre" = Some nom -> form !! "email" = Some em ->
  form !! "telefono" = Some tel ->
  run (apartar environ POST form utcnow n) s =
    (Ok (redirect None (url_whatsapp (WHATSAPP_ADMIN environ) (Boleto.numero_boleto b)
                          (Some nom) (Some em))),
     mkStore (participantes s
                ++ [Participante.mk (next_id (Participante.id <$> participantes s))
                      nom em tel])
             (update_rows (Boleto.id b)
                (fila_apartada (next_id (Participante.id <$> participantes s)) utcnow)
                (boletos s)),
     [Select; Select; Write; Write; Write; Write;
      Commit (mkStore (participantes s
                         ++ [Participante.mk (next_id (Participante.id <$> participantes s))
                               nom em tel])
                (update_rows (Boleto.id b)
                   (fila_apartada (next_id (Participante.id <$> participantes s)) utcnow)
                   (boletos s)))]).
Proof.
  intros Hq Hd Hp Hn He Ht. unfold apartar. unfold_monad. rewrite Hq.
  rewrite decide_False by (by intros ?). unfold_monad. rewrite Hp.
  rewrite Hn, He, Ht. unfold_monad.
  rewrite !update_rows_twice by done.
  by erewrite update_rows_ext by apply fila_apartada_sets.
Qed.

Lemma run_apartar_incompleto form utcnow n s b :
  head (filter (fun b => Boleto.numero_boleto b = n) (boletos s)) = Some b ->
  Boleto.estado b = "disponible" ->
  head (filter (fun p => Some (Participante.email p) = form !! "email")
          (participantes s)) = None ->
  form !! "nombre" = None \/ form !! "email" = None \/ form !! "telefono" = None ->
  run (apartar environ POST form utcnow n) s =
    (Raise IntegrityError, s, [Select; Select; Write]).
Proof.
  intros Hq Hd Hp Hform. unfold apartar. unfold_monad. rewrite Hq.
  rewrite decide_False by (by intros ?). unfold_monad. rewrite Hp.
  destruct (form !! "nombre") as [nom|], (form !! "email") as [em|],
    (form !! "telefono") as [tel|]; try reflexivity.
  exfalso. destruct Hform as [?|[?|?]]; discriminate.
Qed.

Lemma run_confirmar_403 i codigo s :
  codigo <> ADMIN_SECRET_CODE environ ->
  run (confirmar environ i codigo) s = (Raise (abort 403), s, []).
Proof.
  intros Hne. unfold confirmar. rewrite decide_True by done. by unfold_monad.
Qed.

Lemma run_confirmar_404 i s :
  head (filter (fun b => Boleto.id b = i) (boletos s)) = None ->
  run (confirmar environ i (ADMIN_SECRET_CODE environ)) s
  = (Raise (abort 404), s, [Select]).
Proof.
  intros Hq. unfold confirmar. rewrite decide_False by (by intros ?).
  unfold_monad. by rewrite Hq.
Qed.

Lemma run_confirmar_ok i s b :
  head (filter (fun b => Boleto.id b = i) (boletos s)) = Some b ->
  run (confirmar environ i (ADMIN_SECRET_CODE environ)) s
  = (Ok (redirect (Some (flash_pago_confirmado (Boleto.numero_boleto b)))
           (url_admin (ADMIN_SECRET_CODE environ))),
     mkStore (participantes s) (update_rows (Boleto.id b) fila_vendida (boletos s)),
     [Select; Write;
      Commit (mkStore (participantes s)
                (update_rows (Boleto.id b) fila_vendida (boletos s)))]).
Proof.
  intros Hq. unfold confirmar. rewrite decide_False by (by intros ?).
  unfold_monad. by rewrite Hq.
Qed.

Lemma run_index s :
  run index s
  = (Ok (render_index (merge_sort numero_le (filter (fun _ => True) (boletos s)))),
     s, [Select]).
Proof. unfold index. by unfold_monad. Qed.

Lemma run_admin_403 codigo s :
  codigo <> ADMIN_SECRET_CODE environ ->
  run (admin environ codigo) s = (Raise (abort 403), s, []).
Proof.
  intros Hne. unfold admin. rewrite decide_True by done. by unfold_monad.
Qed.

Lemma run_admin_ok s :
  run (admin environ (ADMIN_SECRET_CODE environ)) s
  = (Ok (render_admin
           (merge_sort fecha_le
              (filter (fun b => Boleto.estado b = "apartado") (boletos s)))
           (ADMIN_SECRET_CODE environ)),
     s, [Select]).
Proof.
  unfold admin. rewrite decide_False by (by intros ?). by unfold_monad.
Qed.

End Runs.

(** *** The sweep *)

Lemma fila_liberada_sets (b : Boleto.t) :
  (Boleto.set_fecha_apartado None
     ∘ (Boleto.set_participante_id None ∘ Boleto.set_estado "disponible")) b
  = fila_liberada b.
Proof. reflexivity. Qed.

Lemma liberar_filas_nil l : liberar_filas [] l = l.
Proof.
  unfold liberar_filas. rewrite <- (list_fmap_id l) at 2.
  apply list_fmap_ext. intros i b _. rewrite decide_False; [done|].
  rewrite fmap_nil. apply not_elem_of_nil.
Qed.

Lemma liberar_filas_cons x sel l :
  liberar_filas sel (update_rows (Boleto.id x) fila_liberada l)
  = liberar_filas (x :: sel) l.
Proof.
  unfold liberar_filas, update_rows. rewrite <- list_fmap_compose.
  apply list_fmap_ext. intros i b _. unfold compose. rewrite fmap_cons.
  destruct (decide (Boleto.id b = Boleto.id x)) as [E|E].
  - rewrite (decide_True (P := _ ∈ _ :: _)) by (rewrite E; left).
    by destruct (decide _).
  - destruct (decide (Boleto.id b ∈ Boleto.id <$> sel)) as [Hin|Hin].
    + rewrite decide_True; [done | by right].
    + rewrite decide_False; [done|]. rewrite elem_of_cons. tauto.
Qed.

Lemma liberar_run x σ :
  liberar x σ
  = (Ok tt, mkSession (durable σ)
              (mkStore (participantes (view σ))
                 (update_rows (Boleto.id x) fila_liberada (boletos (view σ))))
              (trace σ ++ [Write; Write; Write])).
Proof.
  unfold liberar. unfold_monad.
  rewrite !update_rows_twice by done.
  erewrite update_rows_ext by apply fila_liberada_sets.
  by rewrite <- !app_assoc.
Qed.

Lemma for_each_liberar (sel : list Boleto.t) σ :
  for_each sel liberar σ
  = (Ok tt, mkSession (durable σ)
              (mkStore (participantes (view σ)) (liberar_filas sel (boletos (view σ))))
              (trace σ ++ replicate (3 * length sel) Write)).
Proof.
  revert σ. induction sel as [|x sel IH]; intros [d [ps bs] tr].
  - simpl. unfold ret. cbn [durable view trace participantes boletos].
    by rewrite liberar_filas_nil, app_nil_r.
  - cbn [for_each]. unfold bind at 1. rewrite liberar_run, IH.
    cbn [durable view trace participantes boletos].
    rewrite liberar_filas_cons.
    replace (3 * length (x :: sel))%nat with (S (S (S (3 * length sel)))) by (simpl; lia).
    cbn [replicate]. by rewrite <- app_assoc.
Qed.

Lemma run_liberar_con_limite minutos utcnow s :
  let sel := filter (fun b => Boleto.estado b = "apartado"
                       /\ fecha_lt (Boleto.fecha_apartado b) (utcnow - timedelta minutos))
               (boletos s) in
  run (liberar_con_limite minutos utcnow) s
  = (Ok (length sel),
     mkStore (participantes s) (liberar_filas sel (boletos s)),
     if decide (0 < length sel)%nat
     then Select :: replicate (3 * length sel) Write
            ++ [Commit (mkStore (participantes s) (liberar_filas sel (boletos s)))]
     else [Select]).
Proof.
  intros sel. unfold liberar_con_limite. unfold_monad. fold sel.
  destruct (decide (0 < length sel)%nat) as [Hpos|Hzero].
  - unfold_monad. rewrite for_each_liberar. by unfold_monad.
  - unfold_monad. destruct sel; [|simpl in Hzero; lia].
    rewrite liberar_filas_nil. by destruct s.
Qed.

(** *** The start-up block *)

Lemma foldr_max_snoc l x :
  foldr Z.max 0 (l ++ [x]) = Z.max (foldr Z.max 0 l) (Z.max x 0).
Proof. induction l as [|a l IH]; simpl; [|rewrite IH]; lia. Qed.

Lemma next_id_filas (k : nat) :
  next_id (Boleto.id <$> (fila_nueva <$> seqZ 0 (Z.of_nat k))) = Z.of_nat k + 1.
Proof.
  unfold next_id.
  assert (foldr Z.max 0 (Boleto.id <$> (fila_nueva <$> seqZ 0 (Z.of_nat k)))
          = Z.of_nat k) as ->; [|lia].
  induction k as [|k IH]; [reflexivity|].
  rewrite seqZ_S, !fmap_snoc, foldr_max_snoc, IH. simpl. lia.
Qed.

Lemma for_each_add_boleto (n k : nat) σ :
  boletos (view σ) = fila_nueva <$> seqZ 0 (Z.of_nat k) ->
  for_each (seqZ (Z.of_nat k) (Z.of_nat n)) (fun i => add_boleto i "disponible") σ
  = (Ok tt, mkSession (durable σ)
              (mkStore (participantes (view σ))
                 (fila_nueva <$> seqZ 0 (Z.of_nat (k + n))))
              (trace σ ++ replicate n Write)).
Proof.
  revert k σ. induction n as [|n IH]; intros k [d [ps bs] tr] Hbs;
    cbn [durable view trace participantes boletos] in *.
  - simpl. unfold ret. by rewrite Hbs, app_nil_r, Nat.add_0_r.
  - rewrite seqZ_cons by lia.
    replace (Z.succ (Z.of_nat k)) with (Z.of_nat (S k)) by lia.
    replace (Z.pred (Z.of_nat (S n))) with (Z.of_nat n) by lia.
    cbn [for_each]. unfold bind at 1, add_boleto at 1, log.
    cbn [durable view trace participantes boletos].
    rewrite IH; cbn [durable view trace participantes boletos].
    + replace (S k + n)%nat with (k + S n)%nat by lia.
      cbn [replicate]. by rewrite <- app_assoc.
    + subst bs. rewrite next_id_filas, seqZ_S, fmap_snoc.
      by rewrite Z.add_0_l.
Qed.

Lemma run_bootstrap_empty cantidad s :
  boletos s = [] ->
  run (bootstrap cantidad) s
  = (Ok tt, mkStore (participantes s) (fila_nueva <$> seqZ 0 cantidad),
     Select :: replicate (Z.to_nat cantidad) Write
       ++ [Commit (mkStore (participantes s) (fila_nueva <$> seqZ 0 cantidad))]).
Proof.
  intros He. unfold bootstrap. unfold_monad. rewrite He. simpl length.
  rewrite decide_True by done. unfold bind.
  replace (seqZ 0 cantidad) with (seqZ (Z.of_nat 0) (Z.of_nat (Z.to_nat cantidad)))
    by (unfold seqZ; by rewrite Nat2Z.id).
  rewrite for_each_add_boleto by (by cbn [view boletos]; rewrite He).
  by unfold_monad.
Qed.

Lemma run_bootstrap_nonempty cantidad s :
  boletos s <> [] ->
  run (bootstrap cantidad) s = (Ok tt, s, [Select]).
Proof.
  intros Hne. unfold bootstrap. unfold_monad.
  rewrite decide_False; [done|]. by destruct (boletos s).
Qed.

(** ** Every operation is a transition *)

Lemma apartar_transition environ method form utcnow n s :
  transition s (store_of (run (apartar environ method form utcnow n) s)).
Proof.
  destruct (head (filter (fun b => Boleto.numero_boleto b = n) (boletos s)))
    as [b|] eqn:Hq.
  2: { rewrite run_apartar_404 by done. constructor. }
  destruct method.
  { erewrite run_apartar_GET by done. constructor. }
  destruct (decide (Boleto.estado b = "disponible")) as [Hd|Hd].
  2: { erewrite run_apartar_conflict by done. constructor. }
  pose proof (head_filter_elem _ _ _ Hq) as [Hb _].
  destruct (form !! "nombre") as [nom|] eqn:Hn, (form !! "email") as [em|] eqn:He,
    (form !! "telefono") as [tel|] eqn:Ht;
    (destruct (head (filter (fun p => Some (Participante.email p) = form !! "email")
                       (participantes s))) as [p|] eqn:Hp;
     [ erewrite run_apartar_existente by done;
       apply head_filter_elem in Hp as [Hp _]; by apply t_reserve_known | ]);
    try (erewrite run_apartar_incompleto
           by first [done | rewrite ?Hn, ?He, ?Ht; auto]; constructor).
  erewrite run_apartar_nuevo by done. cbn [store_of fst snd].
  apply (t_reserve_new s b
           (Participante.mk (next_id (Participante.id <$> participantes s)) nom em tel));
    try done.
  - apply next_id_fresh.
  - cbn [Participante.email]. intros Hin.
    apply list_elem_of_fmap in Hin as (q & Hq' & Hin).
    apply (proj1 (head_filter_None _ _) Hp q Hin). by rewrite He, Hq'.
Qed.

Lemma confirmar_transition environ i codigo s :
  transition s (store_of (run (confirmar environ i codigo) s)).
Proof.
  destruct (decide (codigo = ADMIN_SECRET_CODE environ)) as [->|Hne].
  2: { rewrite run_confirmar_403 by done. constructor. }
  destruct (head (filter (fun b => Boleto.id b = i) (boletos s))) as [b|] eqn:Hq.
  - erewrite run_confirmar_ok by done. apply t_confirm.
    by apply head_filter_elem in Hq as [? _].
  - rewrite run_confirmar_404 by done. constructor.
Qed.

Lemma admin_unchanged environ codigo s :
  store_of (run (admin environ codigo) s) = s.
Proof.
  destruct (decide (codigo = ADMIN_SECRET_CODE environ)) as [->|Hne].
  - by rewrite run_admin_ok.
  - by rewrite run_admin_403.
Qed.

Lemma step_transition environ r s : transition s (step environ r s).
Proof.
  destruct r as [ | method form utcnow n | codigo | i codigo | utcnow | ]; cbn [step].
  - rewrite run_index. constructor.
  - apply apartar_transition.
  - rewrite admin_unchanged. constructor.
  - apply confirmar_transition.
  - unfold liberar_boletos_expirados. rewrite run_liberar_con_limite. apply t_sweep.
  - unfold startup. destruct (boletos s) as [|b bs] eqn:He.
    + rewrite run_bootstrap_empty by done. by apply t_bootstrap.
    + rewrite run_bootstrap_nonempty by (by rewrite He). constructor.
Qed.

(** *** The schema's constraints hold along every transition *)

Lemma liberar_filas_ids sel l :
  Boleto.id <$> liberar_filas sel l = Boleto.id <$> l.
Proof.
  unfold liberar_filas. rewrite <- list_fmap_compose.
  apply list_fmap_ext. intros i b _. unfold compose. by destruct (decide _).
Qed.

Lemma liberar_filas_numeros sel l :
  Boleto.numero_boleto <$> liberar_filas sel l = Boleto.numero_boleto <$> l.
Proof.
  unfold liberar_filas. rewrite <- list_fmap_compose.
  apply list_fmap_ext. intros i b _. unfold compose. by destruct (decide _).
Qed.

Lemma NoDup_snoc_fresh {A} (l : list A) x : NoDup l -> x ∉ l -> NoDup (l ++ [x]).
Proof.
  intros Hnd Hx. apply NoDup_app. split; [done|]. split.
  - intros y Hy Hyx. apply list_elem_of_singleton in Hyx. by subst.
  - apply NoDup_singleton.
Qed.

Lemma transition_wf s s' : transition s s' -> wf s -> wf s'.
Proof.
  intros Ht [Hid Hnum Hpid Hem].
  destruct Ht as [ | b p utcnow Hb Hd Hp | b p utcnow Hb Hd Hfid Hfem | b Hb | sel
                 | cantidad He ];
    constructor; cbn [participantes boletos];
    rewrite ?update_rows_ids, ?update_rows_numeros, ?liberar_filas_ids,
      ?liberar_filas_numeros, ?fmap_app by done;
    try done; try (by apply NoDup_snoc_fresh).
  - rewrite <- list_fmap_compose. apply NoDup_fmap_2; [|apply NoDup_seqZ].
    intros x y Hxy. unfold compose, fila_nueva in Hxy. simpl in Hxy. lia.
  - rewrite <- list_fmap_compose.
    erewrite (list_fmap_ext _ id) by done.
    rewrite list_fmap_id. apply NoDup_seqZ.
Qed.

Lemma wf_empty_store : wf empty_store.
Proof. constructor; apply NoDup_nil_2. Qed.

Lemma steps_wf environ rs s : wf s -> wf (steps environ rs s).
Proof.
  revert s. induction rs as [|r rs IH]; intros s Hwf; [done|].
  apply IH. eapply transition_wf; [apply step_transition | done].
Qed.

(** ** What the transitions keep of the invariants *)

Lemma stamped_ok_update pk f l :
  (forall b, stamped_ok b -> stamped_ok (f b)) ->
  Forall stamped_ok l -> Forall stamped_ok (update_rows pk f l).
Proof.
  intros Hf Hl. unfold update_rows. apply Forall_fmap.
  eapply Forall_impl; [exact Hl|]. intros b Hb. unfold compose.
  destruct (decide _); auto.
Qed.

Lemma stamped_ok_apartada pid utcnow b : stamped_ok (fila_apartada pid utcnow b).
Proof. split; simpl; intros; [split; discriminate | by left]. Qed.

Lemma stamped_ok_vendida b : stamped_ok (fila_vendida b).
Proof. split; simpl; intros; [discriminate | by right]. Qed.

Lemma stamped_ok_liberada b : stamped_ok (fila_liberada b).
Proof. split; simpl; [discriminate | intros [? _]; done]. Qed.

Lemma stamped_ok_nueva i : stamped_ok (fila_nueva i).
Proof. split; simpl; [discriminate | intros [? _]; done]. Qed.

Lemma transition_stamped_ok s s' :
  transition s s' -> Forall stamped_ok (boletos s) -> Forall stamped_ok (boletos s').
Proof.
  intros Ht Hs.
  destruct Ht as [ | b p utcnow _ _ _ | b p utcnow _ _ _ _ | b _ | sel | cantidad _ ];
    cbn [boletos]; try done.
  - apply stamped_ok_update; [|done]. intros; apply stamped_ok_apartada.
  - apply stamped_ok_update; [|done]. intros; apply stamped_ok_apartada.
  - apply stamped_ok_update; [|done]. intros; apply stamped_ok_vendida.
  - unfold liberar_filas. apply Forall_fmap.
    eapply Forall_impl; [exact Hs|]. intros b Hb. unfold compose.
    destruct (decide _); [apply stamped_ok_liberada | done].
  - apply Forall_fmap, Forall_forall. intros i _. apply stamped_ok_nueva.
Qed.

(** ** The claims *)

(** C1 (as amended).  After any sequence of operations (requests to the
    routes, runs of the sweep, runs of the start-up block) from a store in
    which it holds, every ticket whose status is 'apartado' has a reservation
    date and a participant, and every ticket that has both is 'apartado' or
    'vendido'. *)
Theorem reserved_stamped_invariant environ (rs : list Request) (s : Store) :
  Forall stamped_ok (boletos s) ->
  Forall stamped_ok (boletos (steps environ rs s)).
Proof.
  revert s. induction rs as [|r rs IH]; intros s Hs; [done|].
  apply IH. eapply transition_stamped_ok; [apply step_transition | done].
Qed.

Lemma reserved_stamped_invariant_witness :
  Forall stamped_ok (boletos empty_store) /\
  Forall stamped_ok (boletos (steps ∅ venta_del_42 empty_store)).
Proof.
  split; [apply Forall_nil_2 |].
  apply (reserved_stamped_invariant ∅ venta_del_42 empty_store). apply Forall_nil_2.
Defined.

(** C1 as the specification words it fails: once the sale of ticket 42 is
    confirmed the ticket is 'vendido' and still has its date and its
    participant. *)
Lemma reserved_iff_stamped_fails :
  ~ Forall reserved_iff_stamped (boletos (steps ∅ venta_del_42 empty_store)).
Proof.
  intros H. rewrite Forall_lookup in H.
  assert (Hb : boletos (steps ∅ venta_del_42 empty_store) !! 42%nat
               = Some (Boleto.mk 43 42 "vendido" (Some 1000) (Some 1)))
    by (vm_compute; reflexivity).
  destruct (H _ _ Hb) as [_ H']. simpl in H'.
  assert ("vendido" = "apartado") by (apply H'; split; discriminate).
  discriminate.
Qed.

(** C2, evaluated where it fails: confirming the sale of a ticket that is
    'disponible', be it one nobody reserved or one whose reservation the
    sweep has released, leaves it 'vendido' with no participant. *)
Theorem confirmar_disponible_sin_participante :
  boletos (steps ∅ venta_sin_apartado empty_store) !! 0%nat
  = Some (Boleto.mk 1 0 "vendido" None None)
  /\ ~ Forall owner_iff_taken (boletos (steps ∅ venta_sin_apartado empty_store))
  /\ boletos (steps ∅ venta_tras_expirar empty_store) !! 42%nat
     = Some (Boleto.mk 43 42 "vendido" None None)
  /\ ~ Forall owner_iff_taken (boletos (steps ∅ venta_tras_expirar empty_store)).
Proof.
  assert (Hb : boletos (steps ∅ venta_sin_apartado empty_store) !! 0%nat
               = Some (Boleto.mk 1 0 "vendido" None None))
    by (vm_compute; reflexivity).
  assert (Hc : boletos (steps ∅ venta_tras_expirar empty_store) !! 42%nat
               = Some (Boleto.mk 43 42 "vendido" None None))
    by (vm_compute; reflexivity).
  split; [exact Hb|]. split; [|split; [exact Hc|]].
  - intros H. rewrite Forall_lookup in H.
    destruct (H _ _ Hb) as [_ H']. simpl in H'. apply H'; [by right | done].
  - intros H. rewrite Forall_lookup in H.
    destruct (H _ _ Hc) as [_ H']. simpl in H'. apply H'; [by right | done].
Qed.

(** Every operation keeps [owner_iff_taken], except the sale of a ticket
    that has no owner. *)
Lemma owner_invariant_guarded environ (r : Request) (s : Store) :
  Forall owner_iff_taken (boletos s) ->
  Forall owner_iff_taken (boletos (step environ r s))
  \/ exists b, b ∈ boletos s /\ Boleto.participante_id b = None
               /\ step environ r s
                  = mkStore (participantes s)
                      (update_rows (Boleto.id b) fila_vendida (boletos s)).
Proof.
  intros Hs.
  destruct (step_transition environ r s)
    as [ | b p utcnow _ _ _ | b p utcnow _ _ _ _ | b Hb | sel | cantidad _ ];
    cbn [boletos].
  - by left.
  - left. apply Forall_fmap. eapply Forall_impl; [exact Hs|]. intros x Hx.
    unfold compose. destruct (decide _); [|done].
    split; simpl; intros; [by left | discriminate].
  - left. apply Forall_fmap. eapply Forall_impl; [exact Hs|]. intros x Hx.
    unfold compose. destruct (decide _); [|done].
    split; simpl; intros; [by left | discriminate].
  - destruct (decide (Forall (fun x => Boleto.id x = Boleto.id b ->
                                      Boleto.participante_id x <> None) (boletos s)))
      as [Hall|Hex].
    + left. apply Forall_fmap. rewrite Forall_forall in Hs, Hall.
      apply Forall_forall. intros x Hx. unfold compose.
      destruct (decide _) as [E|E]; [|by apply Hs].
      split; simpl; intros; [by right | by apply Hall].
    + right. apply not_Forall_Exists in Hex; [|apply _].
      apply Exists_exists in Hex as (x & Hx & Hnot). exists x.
      unfold compose in Hnot.
      destruct (decide (Boleto.id x = Boleto.id b)) as [E|E]; [|tauto].
      rewrite E. split; [done|]. split; [|done].
      destruct (Boleto.participante_id x); [|done].
      exfalso. apply Hnot. discriminate.
  - left. unfold liberar_filas. apply Forall_fmap.
    eapply Forall_impl; [exact Hs|]. intros x Hx. unfold compose.
    destruct (decide _); [|done].
    split; simpl; [done | intros [?|?]; discriminate].
  - left. apply Forall_fmap, Forall_forall. intros i _.
    split; simpl; [done | intros [?|?]; discriminate].
Qed.

(** ** The sweep *)

(** The query of the sweep selects the expired reservations. *)
Lemma seleccion_expirado minutos utcnow b :
  Boleto.estado b = "apartado"
  /\ fecha_lt (Boleto.fecha_apartado b) (utcnow - timedelta minutos)
  <-> expirado minutos utcnow b.
Proof.
  unfold expirado, fecha_lt. destruct (Boleto.fecha_apartado b) as [t|].
  - split.
    + intros [? ?]. eauto.
    + intros [? (t' & [= <-] & ?)]. done.
  - split; [tauto | intros [? (t' & [=] & ?)]].
Qed.

Lemma liberar_filas_NoDup (P : Boleto.t -> Prop) `{!forall b, Decision (P b)}
    (l : list Boleto.t) :
  NoDup (Boleto.id <$> l) ->
  liberar_filas (filter P l) l
  = (fun b => if decide (P b) then fila_liberada b else b) <$> l.
Proof.
  intros Hnd. unfold liberar_filas. apply list_fmap_ext. intros i b Hb.
  apply list_elem_of_lookup_2 in Hb.
  destruct (decide (P b)) as [HP|HP].
  - rewrite decide_True; [done|].
    apply list_elem_of_fmap_2. by apply list_elem_of_filter.
  - rewrite decide_False; [done|]. intros Hin.
    apply list_elem_of_fmap in Hin as (b' & Hid & Hb').
    apply list_elem_of_filter in Hb' as [HP' Hb'].
    by rewrite (NoDup_fmap_eq Boleto.id l b b') in HP.
Qed.

(** C3.  One pass of the sweep with limit [minutos] at time [utcnow] rewrites
    exactly the tickets that are 'apartado' with a date strictly before
    [utcnow - minutos], each to 'disponible' with no date and no participant,
    and leaves every other ticket and the participants as they were; it
    counts the tickets it released.  The script runs it with 120 minutes. *)
Theorem sweep_releases_expired (minutos : Z) (utcnow : datetime) (s : Store) :
  NoDup (Boleto.id <$> boletos s) ->
  boletos (store_of (run (liberar_con_limite minutos utcnow) s))
  = (fun b => if decide (expirado minutos utcnow b)
              then Boleto.mk (Boleto.id b) (Boleto.numero_boleto b) "disponible" None None
              else b) <$> boletos s
  /\ participantes (store_of (run (liberar_con_limite minutos utcnow) s)) = participantes s
  /\ result_of (run (liberar_con_limite minutos utcnow) s)
     = Ok (length (filter (expirado minutos utcnow) (boletos s)))
  /\ liberar_boletos_expirados utcnow = liberar_con_limite 120 utcnow.
Proof.
  intros Hnd. rewrite run_liberar_con_limite. cbn [store_of result_of fst snd].
  cbn [participantes boletos]. repeat split.
  - rewrite liberar_filas_NoDup by done. apply list_fmap_ext. intros i b _.
    destruct (decide (expirado minutos utcnow b)) as [He|He].
    + rewrite decide_True; [done | by apply seleccion_expirado].
    + rewrite decide_False; [done | by rewrite seleccion_expirado].
  - do 2 f_equal. apply list_filter_iff. intros b. apply seleccion_expirado.
Qed.

Lemma sweep_releases_expired_witness :
  NoDup (Boleto.id <$> boletos cuatro_boletos) /\
  boletos (store_of (run (liberar_con_limite 120 (timedelta 200)) cuatro_boletos))
  = [ Boleto.mk 1 0 "disponible" None None;
      Boleto.mk 2 1 "apartado" (Some (timedelta 199)) (Some 1);
      Boleto.mk 3 2 "vendido" (Some (timedelta 5)) (Some 1);
      Boleto.mk 4 3 "disponible" None None ].
Proof.
  assert (Hnd : NoDup (Boleto.id <$> boletos cuatro_boletos))
    by (apply (bool_decide_unpack _); vm_compute; exact I).
  split; [exact Hnd|].
  destruct (sweep_releases_expired 120 (timedelta 200) cuatro_boletos Hnd) as [-> _].
  vm_compute. reflexivity.
Defined.

(** ** Reserve *)

Lemma form_of_nombre info : form_of info !! "nombre" = Some (info_name info).
Proof. unfold form_of. by simplify_map_eq. Qed.

Lemma form_of_email info : form_of info !! "email" = Some (info_email info).
Proof. unfold form_of. by simplify_map_eq. Qed.

Lemma form_of_telefono info : form_of info !! "telefono" = Some (info_phone info).
Proof. unfold form_of. by simplify_map_eq. Qed.

(** The three ways a reservation goes. *)
Lemma Reserve_cases environ n info utcnow s :
  ((forall b, b ∈ boletos s -> Boleto.numero_boleto b <> n)
   /\ Reserve environ n info utcnow s = (Raise (abort 404), s, [Select]))
  \/ (exists b,
       head (filter (fun b => Boleto.numero_boleto b = n) (boletos s)) = Some b
       /\ Boleto.estado b <> "disponible"
       /\ Reserve environ n info utcnow s
          = (Ok (redirect (Some flash_apartado_por_otro) url_index), s, [Select]))
  \/ (exists b p ps' tr,
       head (filter (fun b => Boleto.numero_boleto b = n) (boletos s)) = Some b
       /\ Boleto.estado b = "disponible"
       /\ participant_for info (participantes s) ps' p
       /\ Reserve environ n info utcnow s
          = (Ok (redirect None
                   (url_whatsapp (WHATSAPP_ADMIN environ) (Boleto.numero_boleto b)
                      (Some (info_name info)) (Some (info_email info)))),
             mkStore ps'
               (update_rows (Boleto.id b) (fila_apartada (Participante.id p) utcnow)
                  (boletos s)),
             tr)
       /\ commits tr
          = [mkStore ps'
               (update_rows (Boleto.id b) (fila_apartada (Participante.id p) utcnow)
                  (boletos s))]).
Proof.
  unfold Reserve.
  destruct (head (filter (fun b => Boleto.numero_boleto b = n) (boletos s)))
    as [b|] eqn:Hq.
  2: { left. split; [exact (proj1 (head_filter_None _ _) Hq) | by apply run_apartar_404]. }
  right. destruct (decide (Boleto.estado b = "disponible")) as [Hd|Hd].
  2: { left. exists b. split; [done|]. split; [done|]. by eapply run_apartar_conflict. }
  right.
  destruct (head (filter (fun p => Some (Participante.email p) = form_of info !! "email")
                    (participantes s))) as [p|] eqn:Hp.
  - exists b, p, (participantes s). eexists. split; [done|]. split; [done|].
    split; [|split].
    + left. apply head_filter_elem in Hp as [Hin He].
      rewrite form_of_email in He. by injection He.
    + erewrite run_apartar_existente by done.
      by rewrite form_of_nombre, form_of_email.
    + reflexivity.
  - eexists b, _, _, _. split; [done|]. split; [done|]. split; [|split].
    + right. split; [|split; reflexivity].
      intros q Hin He. apply (proj1 (head_filter_None _ _) Hp q Hin).
      by rewrite form_of_email, He.
    + erewrite run_apartar_nuevo
        by eauto using form_of_nombre, form_of_email, form_of_telefono.
      reflexivity.
    + reflexivity.
Qed.

Lemma reserve_result_reserved admin n nom em :
  reserve_result (Ok (redirect None (url_whatsapp admin n nom em))) = Reserved.
Proof. reflexivity. Qed.

(** What the reservation of the free ticket [b] answers and leaves, under
    the unique constraint on the numbers. *)
Lemma Reserve_available_row environ n info utcnow s b :
  NoDup (Boleto.numero_boleto <$> boletos s) ->
  b ∈ boletos s -> Boleto.numero_boleto b = n -> Boleto.estado b = "disponible" ->
  reserve_result (result_of (Reserve environ n info utcnow s)) = Reserved
  /\ exists p,
       participant_for info (participantes s)
         (participantes (store_of (Reserve environ n info utcnow s))) p
       /\ boletos (store_of (Reserve environ n info utcnow s))
          = update_rows (Boleto.id b) (fila_apartada (Participante.id p) utcnow)
              (boletos s).
Proof.
  intros Hnd Hb Hn Hd.
  destruct (Reserve_cases environ n info utcnow s)
    as [[Hno ->] | [(b0 & Hq & Hd0 & ->) | (b0 & p & ps' & tr & Hq & Hd0 & Hp & -> & _)]];
    cbn [result_of store_of fst snd participantes boletos];
    try (apply head_filter_elem in Hq as [Hin Hn0]);
    try (assert (b = b0) as -> by (apply (NoDup_fmap_eq Boleto.numero_boleto (boletos s));
                                   congruence)).
  - by destruct (Hno b Hb).
  - done.
  - split; [done|]. by exists p.
Qed.

Lemma participant_for_elem info ps ps' p :
  participant_for info ps ps' p ->
  p ∈ ps' /\ Participante.email p = info_email info.
Proof.
  intros [(Hp & He & ->) | (_ & -> & ->)]; [done|].
  split; [|done]. apply elem_of_app. right. by left.
Qed.

(** C4.  Under the unique constraint on the ticket numbers: Reserve answers
    404, and leaves the store alone, when no ticket has the number (a number
    the store can bind); it answers the conflict redirect (not a 404), and
    leaves the store alone, when the ticket with the number is not
    'disponible'; it succeeds exactly when a ticket with the number exists
    and is 'disponible', and then the store it leaves holds that ticket as
    'apartado', dated with the time of the request and owned by a participant
    that has the email of the request. *)
Theorem reserve_outcome environ (n : Z) (info : ParticipantInfo)
    (utcnow : datetime) (s : Store) :
  NoDup (Boleto.numero_boleto <$> boletos s) ->
  (sqlite_integer n ->
   (forall b, b ∈ boletos s -> Boleto.numero_boleto b <> n) ->
   Reserve environ n info utcnow s = (Raise (abort 404), s, [Select])
   /\ reserve_result (result_of (Reserve environ n info utcnow s)) = NotFound)
  /\ (forall b, b ∈ boletos s -> Boleto.numero_boleto b = n ->
      Boleto.estado b <> "disponible" ->
      Reserve environ n info utcnow s
      = (Ok (redirect (Some flash_apartado_por_otro) url_index), s, [Select])
      /\ reserve_result (result_of (Reserve environ n info utcnow s)) = Conflict)
  /\ (reserve_result (result_of (Reserve environ n info utcnow s)) = Reserved
      <-> exists b, b ∈ boletos s /\ Boleto.numero_boleto b = n
                    /\ Boleto.estado b = "disponible")
  /\ (forall b, b ∈ boletos s -> Boleto.numero_boleto b = n ->
      Boleto.estado b = "disponible" ->
      reserve_result (result_of (Reserve environ n info utcnow s)) = Reserved
      /\ exists p,
           p ∈ participantes (store_of (Reserve environ n info utcnow s))
           /\ Participante.email p = info_email info
           /\ Boleto.mk (Boleto.id b) n "apartado" (Some utcnow)
                (Some (Participante.id p))
              ∈ boletos (store_of (Reserve environ n info utcnow s))).
Proof.
  intros Hnd. split; [|split; [|split]].
  - intros _ Hno.
    destruct (Reserve_cases environ n info utcnow s)
      as [[_ ->] | [(b0 & Hq & _ & _) | (b0 & p & ps' & tr & Hq & _)]];
      [done | |]; apply head_filter_elem in Hq as [Hin Hn0]; by destruct (Hno b0 Hin).
  - intros b Hb Hbn Hbd.
    destruct (Reserve_cases environ n info utcnow s)
      as [[Hno ->] | [(b0 & Hq & Hd & ->) | (b0 & p & ps' & tr & Hq & Hd & _)]];
      [by destruct (Hno b Hb) | done |].
    apply head_filter_elem in Hq as [Hin Hn0].
    assert (b = b0) as -> by (apply (NoDup_fmap_eq Boleto.numero_boleto (boletos s));
                              congruence).
    done.
  - split.
    + destruct (Reserve_cases environ n info utcnow s)
        as [[Hno ->] | [(b0 & Hq & Hd & ->) | (b0 & p & ps' & tr & Hq & Hd & _)]];
        cbn [result_of fst snd]; [discriminate | discriminate |].
      intros _. apply head_filter_elem in Hq as [Hin Hn0]. eauto.
    + intros (b & Hb & Hbn & Hbd).
      by destruct (Reserve_available_row environ n info utcnow s b Hnd Hb Hbn Hbd).
  - intros b Hb <- Hbd.
    destruct (Reserve_available_row environ _ info utcnow s b Hnd Hb eq_refl Hbd)
      as (Hr & p & Hp & Hbs).
    split; [done|]. exists p. apply participant_for_elem in Hp as [Hp He].
    split; [done|]. split; [done|]. rewrite Hbs.
    exact (update_rows_elem_of (Boleto.id b) (fila_apartada (Participante.id p) utcnow)
             (boletos s) b Hb eq_refl).
Qed.

Lemma reserve_outcome_witness :
  NoDup (Boleto.numero_boleto <$> boletos cuatro_boletos)
  /\ sqlite_integer 7
  /\ Reserve ∅ 7 ana 1000 cuatro_boletos = (Raise (abort 404), cuatro_boletos, [Select])
  /\ reserve_result (result_of (Reserve ∅ 0 ana 1000 cuatro_boletos)) = Conflict
  /\ reserve_result (result_of (Reserve ∅ 3 ana 1000 cuatro_boletos)) = Reserved
  /\ exists p,
       p ∈ participantes (store_of (Reserve ∅ 3 ana 1000 cuatro_boletos))
       /\ Participante.email p = "ana@x.com"
       /\ Boleto.mk 4 3 "apartado" (Some 1000) (Some (Participante.id p))
          ∈ boletos (store_of (Reserve ∅ 3 ana 1000 cuatro_boletos)).
Proof.
  assert (Hnd : NoDup (Boleto.numero_boleto <$> boletos cuatro_boletos))
    by (apply (bool_decide_unpack _); vm_compute; exact I).
  assert (Hr : sqlite_integer 7)
    by (apply (bool_decide_unpack _); vm_compute; exact I).
  assert (Hno : forall b, b ∈ boletos cuatro_boletos -> Boleto.numero_boleto b <> 7)
    by (apply Forall_forall; apply (bool_decide_unpack _); vm_compute; exact I).
  assert (H0 : Boleto.mk 1 0 "apartado" (Some (timedelta 79)) (Some 1)
               ∈ boletos cuatro_boletos)
    by (apply (bool_decide_unpack _); vm_compute; exact I).
  assert (H3 : Boleto.mk 4 3 "disponible" None None ∈ boletos cuatro_boletos)
    by (apply (bool_decide_unpack _); vm_compute; exact I).
  split; [exact Hnd|]. split; [exact Hr|]. split; [|split].
  - exact (proj1 (proj1 (reserve_outcome ∅ 7 ana 1000 cuatro_boletos Hnd) Hr Hno)).
  - assert (Hd : Boleto.estado (Boleto.mk 1 0 "apartado" (Some (timedelta 79)) (Some 1))
                 <> "disponible") by discriminate.
    exact (proj2 (proj1 (proj2 (reserve_outcome ∅ 0 ana 1000 cuatro_boletos Hnd))
                    _ H0 eq_refl Hd)).
  - exact (proj2 (proj2 (proj2 (reserve_outcome ∅ 3 ana 1000 cuatro_boletos Hnd)))
             _ H3 eq_refl eq_refl).
Defined.

(** C10.  A reservation that ends in the conflict redirect or in 404 leaves
    the store as it was: it made one query, wrote nothing and committed
    nothing. *)
Theorem reserve_failure_unchanged environ (n : Z) (info : ParticipantInfo)
    (utcnow : datetime) (s : Store) :
  reserve_result (result_of (Reserve environ n info utcnow s)) = Conflict
  \/ reserve_result (result_of (Reserve environ n info utcnow s)) = NotFound ->
  store_of (Reserve environ n info utcnow s) = s
  /\ trace_of (Reserve environ n info utcnow s) = [Select].
Proof.
  destruct (Reserve_cases environ n info utcnow s)
    as [[_ ->] | [(b0 & _ & _ & ->) | (b0 & p & ps' & tr & _ & _ & _ & -> & _)]];
    cbn [result_of store_of trace_of fst snd]; try done.
  intros [?|?]; discriminate.
Qed.

Lemma reserve_failure_unchanged_witness :
  (reserve_result (result_of (Reserve ∅ 0 ana 1000 cuatro_boletos)) = Conflict
   \/ reserve_result (result_of (Reserve ∅ 0 ana 1000 cuatro_boletos)) = NotFound)
  /\ store_of (Reserve ∅ 0 ana 1000 cuatro_boletos) = cuatro_boletos
  /\ trace_of (Reserve ∅ 0 ana 1000 cuatro_boletos) = [Select].
Proof.
  assert (H : reserve_result (result_of (Reserve ∅ 0 ana 1000 cuatro_boletos)) = Conflict
              \/ reserve_result (result_of (Reserve ∅ 0 ana 1000 cuatro_boletos)) = NotFound)
    by (left; vm_compute; reflexivity).
  split; [exact H|]. exact (reserve_failure_unchanged ∅ 0 ana 1000 cuatro_boletos H).
Defined.

(** C5.  In a store that meets the schema's constraints, Reserve of an
    available ticket looks the participant up by email or creates it, and
    makes the ticket 'apartado' with that participant and the current time;
    the changes become durable together, in one commit that is the only one
    of the request.  Whatever the ticket, Reserve either commits nothing and
    leaves the store as it was, or commits once, all of these changes. *)
Theorem reserve_effect environ (n : Z) (info : ParticipantInfo)
    (utcnow : datetime) (s : Store) :
  wf s ->
  (forall b, b ∈ boletos s -> Boleto.numero_boleto b = n ->
     Boleto.estado b = "disponible" ->
     reserve_applied b info utcnow s (store_of (Reserve environ n info utcnow s))
     /\ commits (trace_of (Reserve environ n info utcnow s))
        = [store_of (Reserve environ n info utcnow s)])
  /\ ((store_of (Reserve environ n info utcnow s) = s
       /\ commits (trace_of (Reserve environ n info utcnow s)) = [])
      \/ (exists b, b ∈ boletos s /\ Boleto.numero_boleto b = n
           /\ Boleto.estado b = "disponible"
           /\ reserve_applied b info utcnow s (store_of (Reserve environ n info utcnow s))
           /\ commits (trace_of (Reserve environ n info utcnow s))
              = [store_of (Reserve environ n info utcnow s)])).
Proof.
  intros [Hid Hnum _ _].
  destruct (Reserve_cases environ n info utcnow s)
    as [[Hno ->] | [(b0 & Hq & Hd & ->) | (b0 & p & ps' & tr & Hq & Hd & Hp & -> & Htr)]];
    cbn [result_of store_of trace_of fst snd];
    try (apply head_filter_elem in Hq as [Hin Hn]).
  - split; [|by left]. intros b Hb Hbn _. by destruct (Hno b Hb).
  - split; [|by left]. intros b Hb Hbn Hbd.
    assert (b = b0) as -> by (apply (NoDup_fmap_eq Boleto.numero_boleto (boletos s));
                              congruence).
    done.
  - assert (Happ : reserve_applied b0 info utcnow s
                     (mkStore ps' (update_rows (Boleto.id b0)
                                     (fila_apartada (Participante.id p) utcnow) (boletos s)))).
    { exists p. split; [done|]. cbn [boletos].
      rewrite update_rows_NoDup by done.
      apply list_fmap_ext. intros i x _. by destruct (decide (x = b0)) as [->|]. }
    split.
    + intros b Hb Hbn Hbd.
      assert (b = b0) as -> by (apply (NoDup_fmap_eq Boleto.numero_boleto (boletos s));
                                congruence).
      done.
    + right. exists b0. done.
Qed.

Lemma reserve_effect_witness :
  wf cuatro_boletos
  /\ store_of (Reserve ∅ 3 ana 1000 cuatro_boletos)
     = mkStore
         [ Participante.mk 1 "Ana" "ana@x.com" "555" ]
         [ Boleto.mk 1 0 "apartado" (Some (timedelta 79)) (Some 1);
           Boleto.mk 2 1 "apartado" (Some (timedelta 199)) (Some 1);
           Boleto.mk 3 2 "vendido" (Some (timedelta 5)) (Some 1);
           Boleto.mk 4 3 "apartado" (Some 1000) (Some 1) ]
  /\ commits (trace_of (Reserve ∅ 3 ana 1000 cuatro_boletos))
     = [store_of (Reserve ∅ 3 ana 1000 cuatro_boletos)].
Proof.
  assert (Hwf : wf cuatro_boletos)
    by (apply (bool_decide_unpack _); vm_compute; exact I).
  split; [exact Hwf|]. split; [vm_compute; reflexivity|].
  apply (proj1 (reserve_effect ∅ 3 ana 1000 cuatro_boletos Hwf)
           (Boleto.mk 4 3 "disponible" None None));
    [apply (bool_decide_unpack _); vm_compute; exact I | reflexivity | reflexivity].
Defined.

(** C8.  In a store that meets the schema's constraints, a reservation whose
    email is that of a participant [p] leaves the table of participants as it
    was, name and phone of [p] included whatever the form says, and a free
    ticket it reserves ends owned by [p].  The table changes only when no
    participant has the email, by one new row with the submitted details,
    which the reservation of a free ticket then does add and makes the
    owner. *)
Theorem reserve_reuses_participant environ (n : Z) (info : ParticipantInfo)
    (utcnow : datetime) (s : Store) :
  wf s ->
  (forall p, p ∈ participantes s -> Participante.email p = info_email info ->
     participantes (store_of (Reserve environ n info utcnow s)) = participantes s
     /\ (forall b, b ∈ boletos s -> Boleto.numero_boleto b = n ->
         Boleto.estado b = "disponible" ->
         reserve_result (result_of (Reserve environ n info utcnow s)) = Reserved
         /\ boletos (store_of (Reserve environ n info utcnow s))
            = (fun x => if decide (x = b)
                        then Boleto.mk (Boleto.id b) (Boleto.numero_boleto b) "apartado"
                               (Some utcnow) (Some (Participante.id p))
                        else x) <$> boletos s))
  /\ (participantes (store_of (Reserve environ n info utcnow s)) = participantes s
      \/ ((forall q, q ∈ participantes s -> Participante.email q <> info_email info)
          /\ participantes (store_of (Reserve environ n info utcnow s))
             = participantes s
               ++ [Participante.mk (next_id (Participante.id <$> participantes s))
                     (info_name info) (info_email info) (info_phone info)]))
  /\ ((forall q, q ∈ participantes s -> Participante.email q <> info_email info) ->
      forall b, b ∈ boletos s -> Boleto.numero_boleto b = n ->
      Boleto.estado b = "disponible" ->
      participantes (store_of (Reserve environ n info utcnow s))
      = participantes s
        ++ [Participante.mk (next_id (Participante.id <$> participantes s))
              (info_name info) (info_email info) (info_phone info)]
      /\ boletos (store_of (Reserve environ n info utcnow s))
         = (fun x => if decide (x = b)
                     then Boleto.mk (Boleto.id b) (Boleto.numero_boleto b) "apartado"
                            (Some utcnow)
                            (Some (next_id (Participante.id <$> participantes s)))
                     else x) <$> boletos s).
Proof.
  intros [Hid Hnum _ Hem]. split; [|split].
  - intros p Hin He. split.
    + destruct (Reserve_cases environ n info utcnow s)
        as [[_ ->] | [(b0 & _ & _ & ->)
                     | (b0 & p0 & ps' & tr & _ & _ & Hp & -> & _)]];
        cbn [store_of fst snd participantes]; try done.
      destruct Hp as [(_ & _ & ->) | (Hfresh & _ & _)]; [done|].
      by destruct (Hfresh p Hin).
    + intros b Hb Hbn Hbd.
      destruct (Reserve_available_row environ n info utcnow s b Hnum Hb Hbn Hbd)
        as (Hr & p0 & Hp & ->).
      split; [done|].
      destruct Hp as [(Hp0 & He0 & _) | (Hfresh & _ & _)];
        [|by destruct (Hfresh p Hin)].
      assert (p0 = p) as -> by (apply (NoDup_fmap_eq Participante.email (participantes s));
                                congruence).
      rewrite update_rows_NoDup by done.
      apply list_fmap_ext. intros i x _. by destruct (decide (x = b)) as [->|].
  - destruct (Reserve_cases environ n info utcnow s)
      as [[_ ->] | [(b0 & _ & _ & ->)
                   | (b0 & p0 & ps' & tr & _ & _ & Hp & -> & _)]];
      cbn [store_of fst snd participantes]; try (by left).
    destruct Hp as [(_ & _ & ->) | (Hfresh & -> & ->)]; [by left | by right].
  - intros Hfresh b Hb Hbn Hbd.
    destruct (Reserve_available_row environ n info utcnow s b Hnum Hb Hbn Hbd)
      as (Hr & p0 & Hp & ->).
    destruct Hp as [(Hp0 & He0 & _) | (_ & -> & ->)]; [by destruct (Hfresh p0 Hp0)|].
    split; [done|]. cbn [Participante.id].
    rewrite update_rows_NoDup by done.
    apply list_fmap_ext. intros i x _. by destruct (decide (x = b)) as [->|].
Qed.

(** Reserving the free ticket 3 for the email of Ana, with another name and
    another phone: the participant stays as stored and owns the ticket. *)
Lemma reserve_reuses_participant_witness :
  wf cuatro_boletos
  /\ participantes (store_of (Reserve ∅ 3 (mkInfo "Anita" "ana@x.com" "999") 1000
                                cuatro_boletos))
     = [ Participante.mk 1 "Ana" "ana@x.com" "555" ]
  /\ reserve_result (result_of (Reserve ∅ 3 (mkInfo "Anita" "ana@x.com" "999") 1000
                                  cuatro_boletos)) = Reserved
  /\ boletos (store_of (Reserve ∅ 3 (mkInfo "Anita" "ana@x.com" "999") 1000
                          cuatro_boletos))
     = (fun x => if decide (x = Boleto.mk 4 3 "disponible" None None)
                 then Boleto.mk 4 3 "apartado" (Some 1000) (Some 1)
                 else x) <$> boletos cuatro_boletos.
Proof.
  assert (Hwf : wf cuatro_boletos)
    by (apply (bool_decide_unpack _); vm_compute; exact I).
  assert (Hp : Participante.mk 1 "Ana" "ana@x.com" "555" ∈ participantes cuatro_boletos)
    by (apply (bool_decide_unpack _); vm_compute; exact I).
  assert (Hb : Boleto.mk 4 3 "disponible" None None ∈ boletos cuatro_boletos)
    by (apply (bool_decide_unpack _); vm_compute; exact I).
  split; [exact Hwf|].
  destruct (proj1 (reserve_reuses_participant ∅ 3 (mkInfo "Anita" "ana@x.com" "999") 1000
                     cuatro_boletos Hwf) _ Hp eq_refl) as [Hps Hrow].
  split; [exact Hps|]. exact (Hrow _ Hb eq_refl eq_refl).
Defined.

(** ** Confirm *)

(** C6.  Under the primary key of the tickets, confirming the sale of a
    ticket that is 'apartado' makes that row 'vendido' and keeps its number,
    its date and its participant; every other row and the participants stay
    as they were. *)
Theorem confirm_reserved environ (s : Store) (b : Boleto.t) :
  NoDup (Boleto.id <$> boletos s) ->
  b ∈ boletos s ->
  Boleto.estado b = "apartado" ->
  boletos (store_of (run (confirmar environ (Boleto.id b) (ADMIN_SECRET_CODE environ)) s))
  = (fun x => if decide (x = b)
              then Boleto.mk (Boleto.id b) (Boleto.numero_boleto b) "vendido"
                     (Boleto.fecha_apartado b) (Boleto.participante_id b)
              else x) <$> boletos s
  /\ participantes
       (store_of (run (confirmar environ (Boleto.id b) (ADMIN_SECRET_CODE environ)) s))
     = participantes s
  /\ commits (trace_of (run (confirmar environ (Boleto.id b) (ADMIN_SECRET_CODE environ)) s))
     = [store_of (run (confirmar environ (Boleto.id b) (ADMIN_SECRET_CODE environ)) s)].
Proof.
  intros Hnd Hb _.
  erewrite run_confirmar_ok by (by apply (head_filter_unique Boleto.id)).
  cbn [store_of trace_of fst snd participantes boletos]. split; [|done].
  rewrite update_rows_NoDup by done.
  apply list_fmap_ext. intros i x _. by destruct (decide (x = b)) as [->|].
Qed.

Lemma confirm_reserved_witness :
  NoDup (Boleto.id <$> boletos cuatro_boletos)
  /\ Boleto.mk 2 1 "apartado" (Some (timedelta 199)) (Some 1) ∈ boletos cuatro_boletos
  /\ boletos (store_of (run (confirmar ∅ 2 "admin123") cuatro_boletos))
     = [ Boleto.mk 1 0 "apartado" (Some (timedelta 79)) (Some 1);
         Boleto.mk 2 1 "vendido" (Some (timedelta 199)) (Some 1);
         Boleto.mk 3 2 "vendido" (Some (timedelta 5)) (Some 1);
         Boleto.mk 4 3 "disponible" None None ].
Proof.
  assert (Hnd : NoDup (Boleto.id <$> boletos cuatro_boletos))
    by (apply (bool_decide_unpack _); vm_compute; exact I).
  assert (Hb : Boleto.mk 2 1 "apartado" (Some (timedelta 199)) (Some 1)
               ∈ boletos cuatro_boletos)
    by (apply (bool_decide_unpack _); vm_compute; exact I).
  split; [exact Hnd|]. split; [exact Hb|].
  destruct (confirm_reserved ∅ cuatro_boletos _ Hnd Hb eq_refl) as [Heq _].
  etransitivity; [exact Heq|]. vm_compute. reflexivity.
Defined.

(** ** Bootstrap *)

(** C7.  On a store with no ticket the start-up block creates the tickets
    numbered 0 to [cantidad - 1], all 'disponible' with no date and no
    participant, and touches no participant; on a store with a ticket it
    only counts, and changes nothing.  The source runs it for 100 tickets,
    and running it again changes nothing. *)
Theorem bootstrap_fills_empty_store (cantidad : Z) (s : Store) :
  (boletos s = [] ->
   boletos (store_of (run (bootstrap cantidad) s))
   = (fun i => Boleto.mk (i + 1) i "disponible" None None) <$> seqZ 0 cantidad
   /\ Boleto.numero_boleto <$> boletos (store_of (run (bootstrap cantidad) s))
      = seqZ 0 cantidad
   /\ length (boletos (store_of (run (bootstrap cantidad) s))) = Z.to_nat cantidad
   /\ participantes (store_of (run (bootstrap cantidad) s)) = participantes s)
  /\ (boletos s <> [] ->
      store_of (run (bootstrap cantidad) s) = s
      /\ trace_of (run (bootstrap cantidad) s) = [Select])
  /\ startup = bootstrap 100
  /\ store_of (run startup (store_of (run startup s))) = store_of (run startup s).
Proof.
  split; [|split; [|split]].
  - intros He. rewrite run_bootstrap_empty by done.
    cbn [store_of fst snd participantes boletos]. split; [done|].
    split; [|split; [|done]].
    + rewrite <- list_fmap_compose. erewrite (list_fmap_ext _ id) by done.
      apply list_fmap_id.
    + by rewrite length_fmap, length_seqZ.
  - intros Hne. by rewrite run_bootstrap_nonempty.
  - reflexivity.
  - unfold startup. destruct (boletos s) as [|b bs] eqn:He.
    + rewrite (run_bootstrap_empty 100 s) by done. by rewrite run_bootstrap_nonempty.
    + assert (Hne : boletos s <> []) by (by rewrite He).
      rewrite (run_bootstrap_nonempty 100 s Hne). cbn [store_of fst snd].
      by rewrite (run_bootstrap_nonempty 100 s Hne).
Qed.

Lemma bootstrap_fills_empty_store_witness :
  boletos empty_store = []
  /\ length (boletos (store_of (run startup empty_store))) = 100%nat
  /\ boletos cuatro_boletos <> []
  /\ store_of (run startup cuatro_boletos) = cuatro_boletos.
Proof.
  split; [reflexivity|]. split; [|split; [discriminate|]].
  - apply (proj1 (bootstrap_fills_empty_store 100 empty_store) eq_refl).
  - apply (proj1 (proj2 (bootstrap_fills_empty_store 100 cuatro_boletos))).
    discriminate.
Defined.

(** ** The administrator's secret *)

(** C9.  The list of reserved tickets and the confirmation of a sale answer
    403 exactly when the code in the URL differs from the configured one, and
    a request with another code reaches the store neither to read nor to
    write. *)
Theorem admin_gate environ (codigo_secreto : string) (boleto_id : Z) (s : Store) :
  (result_of (run (admin environ codigo_secreto) s) = Raise (abort 403)
   <-> codigo_secreto <> ADMIN_SECRET_CODE environ)
  /\ (result_of (run (confirmar environ boleto_id codigo_secreto) s) = Raise (abort 403)
      <-> codigo_secreto <> ADMIN_SECRET_CODE environ)
  /\ (codigo_secreto <> ADMIN_SECRET_CODE environ ->
      run (admin environ codigo_secreto) s = (Raise (abort 403), s, [])
      /\ run (confirmar environ boleto_id codigo_secreto) s = (Raise (abort 403), s, [])).
Proof.
  destruct (decide (codigo_secreto = ADMIN_SECRET_CODE environ)) as [->|Hne].
  - rewrite run_admin_ok. cbn [result_of fst snd].
    split; [split; [discriminate | done]|]. split; [|done].
    split; [|done].
    destruct (head (filter (fun b => Boleto.id b = boleto_id) (boletos s)))
      as [b|] eqn:Hq.
    + erewrite run_confirmar_ok by done. discriminate.
    + rewrite run_confirmar_404 by done. discriminate.
  - rewrite run_admin_403, run_confirmar_403 by done. done.
Qed.

Lemma admin_gate_witness :
  "admin12" <> ADMIN_SECRET_CODE ∅
  /\ run (admin ∅ "admin12") cuatro_boletos = (Raise (abort 403), cuatro_boletos, [])
  /\ run (confirmar ∅ 2 "admin12") cuatro_boletos = (Raise (abort 403), cuatro_boletos, []).
Proof.
  assert (Hne : "admin12" <> ADMIN_SECRET_CODE ∅) by discriminate.
  split; [exact Hne|].
  exact (proj2 (proj2 (admin_gate ∅ "admin12" 2 cuatro_boletos)) Hne).
Defined.

(** ** Further properties of the operations *)

Lemma commits_writes n s' :
  commits (Select :: replicate n Write ++ [Commit s']) = [s'].
Proof.
  unfold commits. cbn [omap list_omap]. induction n as [|n IH]; [done|].
  cbn [replicate app omap list_omap]. exact IH.
Qed.

Lemma exec_step environ r s : (exec environ r s).1 = step environ r s.
Proof. by destruct r. Qed.

Lemma apartar_effect environ method form utcnow n s :
  effect s (store_of (run (apartar environ method form utcnow n) s))
    (trace_of (run (apartar environ method form utcnow n) s)).
Proof.
  destruct (head (filter (fun b => Boleto.numero_boleto b = n) (boletos s)))
    as [b|] eqn:Hq.
  2: { rewrite run_apartar_404 by done. by constructor. }
  destruct method.
  { erewrite run_apartar_GET by done. by constructor. }
  destruct (decide (Boleto.estado b = "disponible")) as [Hd|Hd].
  2: { erewrite run_apartar_conflict by done. by constructor. }
  pose proof (head_filter_elem _ _ _ Hq) as [Hb _].
  destruct (form !! "nombre") as [nom|] eqn:Hn, (form !! "email") as [em|] eqn:He,
    (form !! "telefono") as [tel|] eqn:Ht;
    (destruct (head (filter (fun p => Some (Participante.email p) = form !! "email")
                       (participantes s))) as [p|] eqn:Hp;
     [ erewrite run_apartar_existente by done;
       apply head_filter_elem in Hp as [Hp _];
       by eapply (e_reserve s b p); [..|reflexivity|]; eauto | ]);
    try (erewrite run_apartar_incompleto
           by first [done | rewrite ?Hn, ?He, ?Ht; auto]; by constructor).
  erewrite run_apartar_nuevo by done.
  eapply (e_reserve s b
            (Participante.mk (next_id (Participante.id <$> participantes s)) nom em tel));
    [done | done | | reflexivity | reflexivity].
  right. split; [done|]. split; [apply next_id_fresh|].
  cbn [Participante.email]. intros Hin.
  apply list_elem_of_fmap in Hin as (q & Hq' & Hin).
  apply (proj1 (head_filter_None _ _) Hp q Hin). by rewrite He, Hq'.
Qed.

Lemma seleccion_apartados minutos utcnow (l : list Boleto.t) :
  Forall (fun x => x ∈ l /\ Boleto.estado x = "apartado")
    (filter (fun b => Boleto.estado b = "apartado"
                      /\ fecha_lt (Boleto.fecha_apartado b) (utcnow - timedelta minutos)) l).
Proof.
  apply Forall_forall. intros x Hx. apply list_elem_of_filter in Hx. tauto.
Qed.

Lemma exec_effect environ r s :
  effect s (exec environ r s).1 (exec environ r s).2.
Proof.
  destruct r as [ | method form utcnow n | codigo | i codigo | utcnow | ];
    cbn [exec fst snd].
  - rewrite run_index. by constructor.
  - apply apartar_effect.
  - destruct (decide (codigo = ADMIN_SECRET_CODE environ)) as [->|Hne].
    + rewrite run_admin_ok. by constructor.
    + rewrite run_admin_403 by done. by constructor.
  - destruct (decide (codigo = ADMIN_SECRET_CODE environ)) as [->|Hne].
    2: { rewrite run_confirmar_403 by done. by constructor. }
    destruct (head (filter (fun b => Boleto.id b = i) (boletos s))) as [b|] eqn:Hq.
    + erewrite run_confirmar_ok by done.
      apply head_filter_elem in Hq as [Hb _]. by eapply (e_confirm s b).
    + rewrite run_confirmar_404 by done. by constructor.
  - unfold liberar_boletos_expirados. rewrite run_liberar_con_limite.
    cbn [store_of trace_of fst snd]. destruct (decide _) as [Hpos|Hzero].
    + eapply e_sweep; [apply seleccion_apartados | reflexivity | apply commits_writes].
    + destruct (filter _ (boletos s)); [|simpl in Hzero; lia].
      rewrite liberar_filas_nil. destruct s. by constructor.
  - unfold startup. destruct (boletos s) as [|b bs] eqn:He.
    + rewrite run_bootstrap_empty by done.
      eapply e_bootstrap; [done | reflexivity | apply commits_writes].
    + rewrite run_bootstrap_nonempty by (by rewrite He). by constructor.
Qed.

Lemma fila_vendida_vendido b : Boleto.estado b = "vendido" -> fila_vendida b = b.
Proof. destruct b as [i n e f p]. simpl. by intros ->. Qed.

(** A row that is 'vendido' stays where it is, as it is, through any
    effect. *)
Lemma effect_keeps_sold s s' tr i b :
  effect s s' tr -> NoDup (Boleto.id <$> boletos s) ->
  boletos s !! i = Some b -> Boleto.estado b = "vendido" ->
  boletos s' !! i = Some b.
Proof.
  intros He Hnd Hi Hv. pose proof (list_elem_of_lookup_2 _ _ _ Hi) as Hin.
  destruct He as [ tr _ | b0 p ps' utcnow s' tr Hb0 Hd _ -> _ | b0 s' tr Hb0 -> _
                 | sel s' tr Hsel -> _ | cantidad s' tr Hempty -> _ ];
    cbn [boletos]; try done.
  - unfold update_rows. rewrite list_lookup_fmap, Hi. cbn. f_equal.
    destruct (decide _) as [E|E]; [|done].
    assert (b = b0) as -> by (by apply (NoDup_fmap_eq Boleto.id (boletos s))).
    congruence.
  - unfold update_rows. rewrite list_lookup_fmap, Hi. cbn. f_equal.
    destruct (decide _); [by apply fila_vendida_vendido | done].
  - unfold liberar_filas. rewrite list_lookup_fmap, Hi. cbn. f_equal.
    destruct (decide _) as [E|E]; [|done].
    apply list_elem_of_fmap in E as (x & Hid & Hx).
    rewrite Forall_forall in Hsel. destruct (Hsel x Hx) as [Hxin Hxa].
    assert (b = x) as -> by (by apply (NoDup_fmap_eq Boleto.id (boletos s))).
    congruence.
  - rewrite Hempty in Hi. by rewrite lookup_nil in Hi.
Qed.

Lemma transition_rows s s' :
  transition s s' -> boletos s <> [] ->
  Boleto.id <$> boletos s' = Boleto.id <$> boletos s
  /\ Boleto.numero_boleto <$> boletos s' = Boleto.numero_boleto <$> boletos s.
Proof.
  intros Ht Hne.
  destruct Ht as [ | b p utcnow _ _ _ | b p utcnow _ _ _ _ | b _ | sel | cantidad He ];
    cbn [boletos];
    rewrite ?update_rows_ids, ?update_rows_numeros, ?liberar_filas_ids,
      ?liberar_filas_numeros by done; done.
Qed.

Lemma transition_prefix s s' :
  transition s s' -> participantes s `prefix_of` participantes s'.
Proof.
  intros [ | b p utcnow _ _ _ | b p utcnow _ _ _ _ | b _ | sel | cantidad He ];
    cbn [participantes]; try done.
  by apply prefix_app_r.
Qed.

Lemma fk_ok_prefix ps ps' b : ps `prefix_of` ps' -> fk_ok ps b -> fk_ok ps' b.
Proof.
  intros [k ->]. unfold fk_ok. destruct (Boleto.participante_id b); [|done].
  rewrite fmap_app, elem_of_app. by left.
Qed.

Lemma transition_fk s s' :
  transition s s' ->
  Forall (fk_ok (participantes s)) (boletos s) ->
  Forall (fk_ok (participantes s')) (boletos s').
Proof.
  intros Ht Hs.
  destruct Ht as [ | b p utcnow _ _ Hp | b p utcnow _ _ _ _ | b _ | sel | cantidad He ];
    cbn [participantes boletos]; try done.
  - apply Forall_fmap. eapply Forall_impl; [exact Hs|]. intros x Hx. unfold compose.
    destruct (decide _); [|done]. by apply list_elem_of_fmap_2.
  - apply Forall_fmap. eapply Forall_impl; [exact Hs|]. intros x Hx. unfold compose.
    destruct (decide _).
    + unfold fk_ok. cbn. rewrite fmap_app, elem_of_app. right. by left.
    + eapply fk_ok_prefix; [|done]. by apply prefix_app_r.
  - apply Forall_fmap. eapply Forall_impl; [exact Hs|]. intros x Hx. unfold compose.
    by destruct (decide _).
  - apply Forall_fmap. eapply Forall_impl; [exact Hs|]. intros x Hx. unfold compose.
    by destruct (decide _).
  - apply Forall_fmap, Forall_forall. by intros i _.
Qed.

Lemma transition_coherent s s' :
  transition s s' ->
  Forall ticket_coherent (boletos s) -> Forall ticket_coherent (boletos s').
Proof.
  assert (Hap : forall pid t b, ticket_coherent (fila_apartada pid t b)).
  { intros. split; [by right; left|]. split; simpl; [discriminate|]. by split. }
  assert (Hli : forall b, ticket_coherent (fila_liberada b)).
  { intros. split; [by left|]. by split. }
  assert (Hve : forall b, ticket_coherent b -> ticket_coherent (fila_vendida b)).
  { intros b (_ & _ & Hb). split; [by right; right|]. split; [discriminate | done]. }
  intros Ht Hs.
  destruct Ht as [ | b p utcnow _ _ _ | b p utcnow _ _ _ _ | b _ | sel | cantidad He ];
    cbn [boletos]; try done;
    try (apply Forall_fmap; eapply Forall_impl; [exact Hs|]; intros x Hx;
         unfold compose; destruct (decide _); auto).
  apply Forall_fmap, Forall_forall. intros i _. split; [by left|]. by split.
Qed.

(** X1.  Every operation keeps the constraints the schema declares: no two
    tickets with one key or one number, no two participants with one key or
    one email, after any sequence of requests and script runs. *)
Theorem schema_constraints_kept environ (rs : list Request) (s : Store) :
  wf s -> wf (steps environ rs s).
Proof.
  revert s. induction rs as [|r rs IH]; intros s Hwf; [done|].
  cbn [steps foldl]. apply IH.
  apply (transition_wf s); [apply step_transition | done].
Qed.

Lemma schema_constraints_kept_witness :
  wf cuatro_boletos
  /\ wf (steps ∅ [ req_apartar POST (form_of (mkInfo "Luis" "luis@x.com" "777")) 5000 3;
                   run_liberar (timedelta 200);
                   req_confirmar 2 "admin123" ] cuatro_boletos).
Proof.
  assert (Hwf : wf cuatro_boletos)
    by (apply (bool_decide_unpack _); vm_compute; exact I).
  split; [exact Hwf|]. exact (schema_constraints_kept ∅ _ cuatro_boletos Hwf).
Defined.

(** X2.  A sold ticket is final: in a store that meets the schema's
    constraints, no sequence of requests and script runs moves or changes a
    row that is 'vendido'; no reservation, no sweep and no further
    confirmation touches it. *)
Theorem sold_is_final environ (rs : list Request) (s : Store) (i : nat) (b : Boleto.t) :
  wf s ->
  boletos s !! i = Some b ->
  Boleto.estado b = "vendido" ->
  boletos (steps environ rs s) !! i = Some b.
Proof.
  revert s. induction rs as [|r rs IH]; intros s Hwf Hi Hv; [done|].
  cbn [steps foldl]. apply IH; [| |done].
  - apply (transition_wf s); [apply step_transition | done].
  - rewrite <- exec_step.
    eapply effect_keeps_sold; [apply exec_effect | by destruct Hwf | done | done].
Qed.

Lemma sold_is_final_witness :
  wf cuatro_boletos
  /\ boletos cuatro_boletos !! 2%nat = Some (Boleto.mk 3 2 "vendido" (Some (timedelta 5)) (Some 1))
  /\ boletos (steps ∅ [ run_liberar (timedelta 200);
                        req_apartar POST (form_of ana) 5000 2;
                        req_confirmar 3 "admin123" ] cuatro_boletos) !! 2%nat
     = Some (Boleto.mk 3 2 "vendido" (Some (timedelta 5)) (Some 1)).
Proof.
  assert (Hwf : wf cuatro_boletos)
    by (apply (bool_decide_unpack _); vm_compute; exact I).
  split; [exact Hwf|]. split; [reflexivity|].
  exact (sold_is_final ∅ _ cuatro_boletos 2 _ Hwf eq_refl eq_refl).
Defined.

(** X3.  Once the table of tickets is not empty, no operation creates,
    deletes, renumbers or rekeys a ticket: the keys and the numbers of the
    rows, in order, are for ever the same. *)
Theorem tickets_fixed_once_created environ (rs : list Request) (s : Store) :
  boletos s <> [] ->
  Boleto.id <$> boletos (steps environ rs s) = Boleto.id <$> boletos s
  /\ Boleto.numero_boleto <$> boletos (steps environ rs s)
     = Boleto.numero_boleto <$> boletos s.
Proof.
  revert s. induction rs as [|r rs IH]; intros s Hne; [done|].
  cbn [steps foldl].
  destruct (transition_rows s (step environ r s) (step_transition environ r s) Hne)
    as [Hid Hnum].
  destruct (IH (step environ r s)) as [Hid' Hnum'].
  - intros Hnil. apply Hne. apply (f_equal (fmap Boleto.id)) in Hnil.
    rewrite Hid in Hnil. by destruct (boletos s).
  - unfold steps in *. by rewrite Hid', Hnum'.
Qed.

Lemma tickets_fixed_once_created_witness :
  boletos cuatro_boletos <> []
  /\ Boleto.numero_boleto
       <$> boletos (steps ∅ [ run_startup; run_liberar (timedelta 200);
                              req_apartar POST (form_of ana) 5000 3 ] cuatro_boletos)
     = [0; 1; 2; 3].
Proof.
  assert (Hne : boletos cuatro_boletos <> []) by discriminate.
  split; [exact Hne|].
  exact (proj2 (tickets_fixed_once_created ∅ _ cuatro_boletos Hne)).
Defined.

(** X4.  No operation deletes or rewrites a participant: the table of
    participants before any sequence of operations is a prefix of the table
    after it. *)
Theorem participants_only_grow environ (rs : list Request) (s : Store) :
  participantes s `prefix_of` participantes (steps environ rs s).
Proof.
  revert s. induction rs as [|r rs IH]; intros s; [done|].
  cbn [steps foldl]. etransitivity; [|apply IH].
  apply transition_prefix, step_transition.
Qed.

(** X5.  No operation leaves a dangling reference: if every ticket that
    names a participant names the key of a row of the participants, the same
    holds after any sequence of operations. *)
Theorem foreign_keys_kept environ (rs : list Request) (s : Store) :
  Forall (fk_ok (participantes s)) (boletos s) ->
  Forall (fk_ok (participantes (steps environ rs s))) (boletos (steps environ rs s)).
Proof.
  revert s. induction rs as [|r rs IH]; intros s Hs; [done|].
  cbn [steps foldl]. apply IH. apply (transition_fk s); [apply step_transition | done].
Qed.

Lemma foreign_keys_kept_witness :
  Forall (fk_ok (participantes cuatro_boletos)) (boletos cuatro_boletos)
  /\ Forall (fk_ok (participantes
                      (steps ∅ [ req_apartar POST
                                   (form_of (mkInfo "Luis" "luis@x.com" "777")) 5000 3 ]
                         cuatro_boletos)))
       (boletos (steps ∅ [ req_apartar POST
                             (form_of (mkInfo "Luis" "luis@x.com" "777")) 5000 3 ]
                   cuatro_boletos)).
Proof.
  assert (Hfk : Forall (fk_ok (participantes cuatro_boletos)) (boletos cuatro_boletos))
    by (apply (bool_decide_unpack _); vm_compute; exact I).
  split; [exact Hfk|]. exact (foreign_keys_kept ∅ _ cuatro_boletos Hfk).
Defined.

(** X6.  Every operation keeps the three columns of a ticket coherent: the
    status is 'disponible', 'apartado' or 'vendido', a ticket 'disponible'
    has neither date nor participant, and the date is NULL exactly when the
    participant is. *)
Theorem tickets_stay_coherent environ (rs : list Request) (s : Store) :
  Forall ticket_coherent (boletos s) ->
  Forall ticket_coherent (boletos (steps environ rs s)).
Proof.
  revert s. induction rs as [|r rs IH]; intros s Hs; [done|].
  cbn [steps foldl]. apply IH.
  apply (transition_coherent s); [apply step_transition | done].
Qed.

Lemma tickets_stay_coherent_witness :
  Forall ticket_coherent (boletos cuatro_boletos)
  /\ Forall ticket_coherent
       (boletos (steps ∅ [ req_confirmar 4 "admin123"; run_liberar (timedelta 200) ]
                   cuatro_boletos)).
Proof.
  assert (Hc : Forall ticket_coherent (boletos cuatro_boletos))
    by (apply (bool_decide_unpack _); vm_compute; exact I).
  split; [exact Hc|]. exact (tickets_stay_coherent ∅ _ cuatro_boletos Hc).
Defined.

(** X7.  Every request and every script run is one transaction at most:
    either it commits nothing and the durable store is as before, or it
    commits exactly once and what that commit made durable is the store it
    leaves. *)
Theorem one_commit_per_operation environ (r : Request) (s : Store) :
  ((exec environ r s).1 = s /\ commits (exec environ r s).2 = [])
  \/ commits (exec environ r s).2 = [(exec environ r s).1].
Proof.
  destruct (exec_effect environ r s)
    as [ tr Hc | b p ps' utcnow s' tr _ _ _ _ Hc | b s' tr _ _ Hc
       | sel s' tr _ _ Hc | cantidad s' tr _ _ Hc ];
    [left; by split | by right ..].
Qed.

(** X8.  The pages that only show something never change the store and
    never write to it: the list of all tickets, the administrator's list
    (with any code), and the GET of the reservation form (for any number)
    issue queries only. *)
Theorem pages_are_read_only environ (s : Store) (codigo_secreto : string)
    (form : gmap string string) (utcnow : datetime) (n : Z) :
  (store_of (run index s) = s /\ read_only (trace_of (run index s)))
  /\ (store_of (run (admin environ codigo_secreto) s) = s
      /\ read_only (trace_of (run (admin environ codigo_secreto) s)))
  /\ (store_of (run (apartar environ GET form utcnow n) s) = s
      /\ read_only (trace_of (run (apartar environ GET form utcnow n) s))).
Proof.
  split; [|split].
  - rewrite run_index. split; [done|]. by repeat constructor.
  - destruct (decide (codigo_secreto = ADMIN_SECRET_CODE environ)) as [->|Hne].
    + rewrite run_admin_ok. split; [done|]. by repeat constructor.
    + rewrite run_admin_403 by done. split; [done|]. constructor.
  - destruct (head (filter (fun b => Boleto.numero_boleto b = n) (boletos s)))
      as [b|] eqn:Hq.
    + erewrite run_apartar_GET by done. split; [done|]. by repeat constructor.
    + rewrite run_apartar_404 by done. split; [done|]. by repeat constructor.
Qed.

Lemma liberar_filas_none_left (P : Boleto.t -> Prop) `{!forall b, Decision (P b)}
    (l : list Boleto.t) :
  (forall b, P b -> Boleto.estado b = "apartado") ->
  NoDup (Boleto.id <$> l) ->
  filter P (liberar_filas (filter P l) l) = [].
Proof.
  intros HP Hnd. rewrite liberar_filas_NoDup by done.
  apply elem_of_nil_inv. intros x Hx.
  apply list_elem_of_filter in Hx as [HPx Hx].
  apply list_elem_of_fmap in Hx as (b & -> & _).
  destruct (decide (P b)) as [Hb|Hb]; [|done].
  apply HP in HPx. discriminate.
Qed.

(** X9.  The sweep is idempotent: under the primary key of the tickets, a
    second pass with the same limit at the same time finds nothing to
    release, reports 0, writes nothing and commits nothing. *)
Theorem sweep_idempotent (minutos : Z) (utcnow : datetime) (s : Store) :
  NoDup (Boleto.id <$> boletos s) ->
  run (liberar_con_limite minutos utcnow)
    (store_of (run (liberar_con_limite minutos utcnow) s))
  = (Ok 0%nat, store_of (run (liberar_con_limite minutos utcnow) s), [Select]).
Proof.
  intros Hnd. rewrite (run_liberar_con_limite minutos utcnow s).
  cbn [store_of fst snd]. rewrite run_liberar_con_limite. cbn [participantes boletos].
  rewrite liberar_filas_none_left by (tauto || done).
  by rewrite liberar_filas_nil.
Qed.

Lemma sweep_idempotent_witness :
  NoDup (Boleto.id <$> boletos cuatro_boletos)
  /\ result_of (run (liberar_con_limite 120 (timedelta 200)) cuatro_boletos) = Ok 1%nat
  /\ result_of (run (liberar_con_limite 120 (timedelta 200))
                  (store_of (run (liberar_con_limite 120 (timedelta 200)) cuatro_boletos)))
     = Ok 0%nat.
Proof.
  assert (Hnd : NoDup (Boleto.id <$> boletos cuatro_boletos))
    by (apply (bool_decide_unpack _); vm_compute; exact I).
  split; [exact Hnd|]. split; [vm_compute; reflexivity|].
  by rewrite (sweep_idempotent 120 (timedelta 200) cuatro_boletos Hnd).
Defined.

Lemma fecha_le_trans : Transitive fecha_le.
Proof.
  intros a b c. unfold fecha_le.
  destruct (Boleto.fecha_apartado a), (Boleto.fecha_apartado b),
    (Boleto.fecha_apartado c); try tauto. lia.
Qed.

Lemma numero_le_trans : Transitive numero_le.
Proof. intros a b c. unfold numero_le. lia. Qed.

Lemma filter_all {A} (l : list A) : filter (fun _ => True) l = l.
Proof.
  induction l as [|a l IH]; [done|].
  rewrite filter_cons_True by done. by rewrite IH.
Qed.

(** X10.  With the configured code, the administrator's page shows exactly
    the tickets that are 'apartado', each once, ordered by reservation date:
    no ticket of the list is dated after one that follows it. *)
Theorem admin_lists_reserved_by_date environ (s : Store) :
  exists l,
    result_of (run (admin environ (ADMIN_SECRET_CODE environ)) s)
    = Ok (render_admin l (ADMIN_SECRET_CODE environ))
    /\ l ≡ₚ filter (fun b => Boleto.estado b = "apartado") (boletos s)
    /\ StronglySorted fecha_le l.
Proof.
  rewrite run_admin_ok. cbn [result_of fst snd]. eexists. split; [done|]. split.
  - apply merge_sort_Permutation.
  - apply (@Sorted_StronglySorted _ _ fecha_le_trans), Sorted_merge_sort, _.
Qed.

(** X11.  The index page shows every ticket of the table, each once, in the
    order of the ticket numbers. *)
Theorem index_lists_all_by_number (s : Store) :
  exists l,
    result_of (run index s) = Ok (render_index l)
    /\ l ≡ₚ boletos s
    /\ StronglySorted numero_le l.
Proof.
  rewrite run_index. cbn [result_of fst snd]. eexists. split; [done|]. split.
  - rewrite merge_sort_Permutation. by rewrite filter_all.
  - apply (@Sorted_StronglySorted _ _ numero_le_trans), Sorted_merge_sort, _.
Qed.

(** X12.  The GET of the reservation form, under the unique constraint on
    the ticket numbers: 404 when no ticket has the number (a number the store
    can bind); the form for the ticket when it is 'disponible'; otherwise a
    redirect to the index with the warning that names the number. *)
Theorem apartar_GET_outcome environ (form : gmap string string)
    (utcnow : datetime) (n : Z) (s : Store) :
  NoDup (Boleto.numero_boleto <$> boletos s) ->
  (sqlite_integer n ->
   (forall b, b ∈ boletos s -> Boleto.numero_boleto b <> n) ->
   result_of (run (apartar environ GET form utcnow n) s) = Raise (abort 404))
  /\ (forall b, b ∈ boletos s -> Boleto.numero_boleto b = n ->
      Boleto.estado b = "disponible" ->
      result_of (run (apartar environ GET form utcnow n) s) = Ok (render_apartar b))
  /\ (forall b, b ∈ boletos s -> Boleto.numero_boleto b = n ->
      Boleto.estado b <> "disponible" ->
      result_of (run (apartar environ GET form utcnow n) s)
      = Ok (redirect (Some (flash_ya_no_disponible n)) url_index)).
Proof.
  intros Hnd. split; [|split].
  - intros _ Hno. rewrite run_apartar_404; [done|].
    apply head_filter_None. intros b Hb. by apply Hno.
  - intros b Hb <- Hd.
    erewrite run_apartar_GET by (by apply (head_filter_unique Boleto.numero_boleto)).
    cbn [result_of fst snd]. by rewrite decide_False by (by intros ?).
  - intros b Hb <- Hd.
    erewrite run_apartar_GET by (by apply (head_filter_unique Boleto.numero_boleto)).
    cbn [result_of fst snd]. by rewrite decide_True.
Qed.

Lemma apartar_GET_outcome_witness :
  NoDup (Boleto.numero_boleto <$> boletos cuatro_boletos)
  /\ sqlite_integer 9
  /\ result_of (run (apartar ∅ GET ∅ 0 9) cuatro_boletos) = Raise (abort 404)
  /\ result_of (run (apartar ∅ GET ∅ 0 3) cuatro_boletos)
     = Ok (render_apartar (Boleto.mk 4 3 "disponible" None None))
  /\ result_of (run (apartar ∅ GET ∅ 0 2) cuatro_boletos)
     = Ok (redirect (Some (flash_ya_no_disponible 2)) url_index).
Proof.
  assert (Hnd : NoDup (Boleto.numero_boleto <$> boletos cuatro_boletos))
    by (apply (bool_decide_unpack _); vm_compute; exact I).
  assert (Hr : sqlite_integer 9)
    by (apply (bool_decide_unpack _); vm_compute; exact I).
  split; [exact Hnd|]. split; [exact Hr|]. split; [|split].
  - apply (proj1 (apartar_GET_outcome ∅ ∅ 0 9 cuatro_boletos Hnd) Hr).
    apply Forall_forall. apply (bool_decide_unpack _); vm_compute; exact I.
  - apply (proj1 (proj2 (apartar_GET_outcome ∅ ∅ 0 3 cuatro_boletos Hnd)));
      [apply (bool_decide_unpack _); vm_compute; exact I | reflexivity | reflexivity].
  - apply (proj2 (proj2 (apartar_GET_outcome ∅ ∅ 0 2 cuatro_boletos Hnd))
             (Boleto.mk 3 2 "vendido" (Some (timedelta 5)) (Some 1)));
      [apply (bool_decide_unpack _); vm_compute; exact I | reflexivity | discriminate].
Defined.

(** X13.  Confirmation with the configured code, under the primary key of
    the tickets: it answers 404 and leaves the store alone, after a single
    query, when no ticket has the key (a key the store can bind); and it is
    idempotent, a second confirmation of the same key leaving the store of
    the first. *)
Theorem confirmar_idempotent environ (i : Z) (s : Store) :
  NoDup (Boleto.id <$> boletos s) ->
  (sqlite_integer i ->
   (forall b, b ∈ boletos s -> Boleto.id b <> i) ->
   run (confirmar environ i (ADMIN_SECRET_CODE environ)) s
   = (Raise (abort 404), s, [Select]))
  /\ store_of (run (confirmar environ i (ADMIN_SECRET_CODE environ))
                 (store_of (run (confirmar environ i (ADMIN_SECRET_CODE environ)) s)))
     = store_of (run (confirmar environ i (ADMIN_SECRET_CODE environ)) s).
Proof.
  intros Hnd. split.
  - intros _ Hno. apply run_confirmar_404.
    apply head_filter_None. intros b Hb. by apply Hno.
  - destruct (head (filter (fun b => Boleto.id b = i) (boletos s))) as [b|] eqn:Hq.
    + apply head_filter_elem in Hq as [Hb <-].
      erewrite (run_confirmar_ok _ _ s)
        by (by apply (head_filter_unique Boleto.id)).
      cbn [store_of fst snd].
      erewrite (run_confirmar_ok _ _ _ (fila_vendida b)).
      * cbn [store_of fst snd participantes boletos]. f_equal.
        change (Boleto.id (fila_vendida b)) with (Boleto.id b).
        rewrite update_rows_twice by done. by apply update_rows_ext.
      * cbn [boletos].
        apply (head_filter_unique Boleto.id _ (fila_vendida b)).
        -- by rewrite update_rows_ids.
        -- by apply update_rows_elem_of.
    + rewrite (run_confirmar_404 _ _ s) by done. cbn [store_of fst snd].
      by rewrite run_confirmar_404.
Qed.

Lemma confirmar_idempotent_witness :
  NoDup (Boleto.id <$> boletos cuatro_boletos)
  /\ sqlite_integer 77
  /\ run (confirmar ∅ 77 "admin123") cuatro_boletos
     = (Raise (abort 404), cuatro_boletos, [Select])
  /\ store_of (run (confirmar ∅ 2 "admin123")
                 (store_of (run (confirmar ∅ 2 "admin123") cuatro_boletos)))
     = store_of (run (confirmar ∅ 2 "admin123") cuatro_boletos).
Proof.
  assert (Hnd : NoDup (Boleto.id <$> boletos cuatro_boletos))
    by (apply (bool_decide_unpack _); vm_compute; exact I).
  assert (Hr : sqlite_integer 77)
    by (apply (bool_decide_unpack _); vm_compute; exact I).
  split; [exact Hnd|]. split; [exact Hr|]. split.
  - assert (Hno : forall b, b ∈ boletos cuatro_boletos -> Boleto.id b <> 77)
      by (apply Forall_forall; apply (bool_decide_unpack _); vm_compute; exact I).
    exact (proj1 (confirmar_idempotent ∅ 77 cuatro_boletos Hnd) Hr Hno).
  - exact (proj2 (confirmar_idempotent ∅ 2 cuatro_boletos Hnd)).
Defined.

Lemma Reserve_of_available environ n info utcnow s b :
  NoDup (Boleto.numero_boleto <$> boletos s) ->
  b ∈ boletos s -> Boleto.numero_boleto b = n -> Boleto.estado b = "disponible" ->
  reserve_result (result_of (Reserve environ n info utcnow s)) = Reserved.
Proof.
  intros Hnd Hb Hn Hd.
  destruct (Reserve_cases environ n info utcnow s)
    as [[Hno ->] | [(b0 & Hq & Hd0 & ->) | (b0 & p & ps' & tr & Hq & Hd0 & _ & -> & _)]];
    cbn [result_of fst snd]; [by destruct (Hno b Hb) | | done].
  apply head_filter_elem in Hq as [Hin Hn0].
  assert (b = b0) as -> by (apply (NoDup_fmap_eq Boleto.numero_boleto (boletos s));
                            congruence).
  done.
Qed.

Lemma Reserve_of_missing environ n info utcnow s :
  (forall b, b ∈ boletos s -> Boleto.numero_boleto b <> n) ->
  reserve_result (result_of (Reserve environ n info utcnow s)) = NotFound.
Proof.
  intros Hno.
  destruct (Reserve_cases environ n info utcnow s)
    as [[_ ->] | [(b0 & Hq & _ & _) | (b0 & p & ps' & tr & Hq & _)]];
    [done | |]; apply head_filter_elem in Hq as [Hin Hn0]; by destruct (Hno b0 Hin).
Qed.

(** X14.  In a store that meets the schema's constraints, once a
    reservation of a ticket number has succeeded, a second reservation of
    the number, by anyone at any time, gets the conflict redirect and
    changes nothing. *)
Theorem reserve_twice_conflicts environ (n : Z) (info info' : ParticipantInfo)
    (utcnow utcnow' : datetime) (s : Store) :
  wf s ->
  reserve_result (result_of (Reserve environ n info utcnow s)) = Reserved ->
  Reserve environ n info' utcnow' (store_of (Reserve environ n info utcnow s))
  = (Ok (redirect (Some flash_apartado_por_otro) url_index),
     store_of (Reserve environ n info utcnow s), [Select]).
Proof.
  intros [Hid Hnum _ _].
  destruct (Reserve_cases environ n info utcnow s)
    as [[Hno ->] | [(b0 & Hq & Hd0 & ->) | (b0 & p & ps' & tr & Hq & Hd0 & _ & -> & _)]];
    cbn [result_of store_of fst snd]; [discriminate | discriminate |].
  intros _. apply head_filter_elem in Hq as [Hin <-]. unfold Reserve.
  eapply (run_apartar_conflict _ _ _ _ _ (fila_apartada (Participante.id p) utcnow b0));
    [|discriminate].
  cbn [boletos].
  apply (head_filter_unique Boleto.numero_boleto _
           (fila_apartada (Participante.id p) utcnow b0)).
  - by rewrite update_rows_numeros.
  - by apply update_rows_elem_of.
Qed.

Lemma reserve_twice_conflicts_witness :
  wf cuatro_boletos
  /\ reserve_result (result_of (Reserve ∅ 3 ana 1000 cuatro_boletos)) = Reserved
  /\ reserve_result
       (result_of (Reserve ∅ 3 (mkInfo "Luis" "luis@x.com" "777") 2000
                     (store_of (Reserve ∅ 3 ana 1000 cuatro_boletos)))) = Conflict.
Proof.
  assert (Hwf : wf cuatro_boletos)
    by (apply (bool_decide_unpack _); vm_compute; exact I).
  assert (Hr : reserve_result (result_of (Reserve ∅ 3 ana 1000 cuatro_boletos)) = Reserved)
    by (vm_compute; reflexivity).
  split; [exact Hwf|]. split; [exact Hr|].
  by rewrite (reserve_twice_conflicts ∅ 3 ana (mkInfo "Luis" "luis@x.com" "777")
                1000 2000 cuatro_boletos Hwf Hr).
Defined.

(** X15.  Round trip of a reservation: in a store that meets the schema's
    constraints, after a successful reservation of number [n] with an email,
    the query of the participants by that email finds a participant, and the
    tickets of that participant include the ticket [n], now 'apartado'. *)
Theorem reserve_round_trip environ (n : Z) (info : ParticipantInfo)
    (utcnow : datetime) (s : Store) :
  wf s ->
  reserve_result (result_of (Reserve environ n info utcnow s)) = Reserved ->
  exists p b,
    head (filter (fun q => Participante.email q = info_email info)
            (participantes (store_of (Reserve environ n info utcnow s)))) = Some p
    /\ b ∈ Participante_boletos p (store_of (Reserve environ n info utcnow s))
    /\ Boleto.numero_boleto b = n
    /\ Boleto.estado b = "apartado".
Proof.
  intros [Hid Hnum _ Hem].
  destruct (Reserve_cases environ n info utcnow s)
    as [[Hno ->] | [(b0 & Hq & Hd0 & ->) | (b0 & p & ps' & tr & Hq & Hd0 & Hp & -> & _)]];
    cbn [result_of store_of fst snd]; [discriminate | discriminate |].
  intros _. apply head_filter_elem in Hq as [Hin Hn0].
  exists p, (fila_apartada (Participante.id p) utcnow b0).
  cbn [participantes]. split; [|split; [|done]].
  - destruct Hp as [(Hp & <- & ->) | (Hfresh & Hpeq & ->)].
    + by apply (head_filter_unique Participante.email).
    + assert (He : Participante.email p = info_email info) by (by rewrite Hpeq).
      rewrite <- He. apply (head_filter_unique Participante.email).
      * rewrite fmap_app. apply NoDup_snoc_fresh; [done|]. intros Hin'.
        apply list_elem_of_fmap in Hin' as (q & Hq' & Hqin).
        apply (Hfresh q Hqin). congruence.
      * apply elem_of_app. right. by left.
  - unfold Participante_boletos. apply list_elem_of_filter. split; [done|].
    cbn [boletos]. by apply update_rows_elem_of.
Qed.

Lemma reserve_round_trip_witness :
  wf cuatro_boletos
  /\ reserve_result
       (result_of (Reserve ∅ 3 (mkInfo "Luis" "luis@x.com" "777") 5000 cuatro_boletos))
     = Reserved
  /\ exists p b,
       head (filter (fun q => Participante.email q = "luis@x.com")
               (participantes
                  (store_of (Reserve ∅ 3 (mkInfo "Luis" "luis@x.com" "777") 5000
                               cuatro_boletos)))) = Some p
       /\ b ∈ Participante_boletos p
                (store_of (Reserve ∅ 3 (mkInfo "Luis" "luis@x.com" "777") 5000
                             cuatro_boletos))
       /\ Boleto.numero_boleto b = 3
       /\ Boleto.estado b = "apartado".
Proof.
  assert (Hwf : wf cuatro_boletos)
    by (apply (bool_decide_unpack _); vm_compute; exact I).
  assert (Hr : reserve_result
                 (result_of (Reserve ∅ 3 (mkInfo "Luis" "luis@x.com" "777") 5000
                               cuatro_boletos)) = Reserved)
    by (vm_compute; reflexivity).
  split; [exact Hwf|]. split; [exact Hr|].
  exact (reserve_round_trip ∅ 3 (mkInfo "Luis" "luis@x.com" "777") 5000
           cuatro_boletos Hwf Hr).
Defined.

(** X16.  A POST for a free ticket whose form lacks a field, with an email
    no participant has (or no email at all), is refused by the store: the
    insert of the participant raises IntegrityError before the ticket is
    touched, nothing is committed, and the store is as before. *)
Theorem incomplete_form_reserves_nothing environ (form : gmap string string)
    (utcnow : datetime) (n : Z) (s : Store) (b : Boleto.t) :
  NoDup (Boleto.numero_boleto <$> boletos s) ->
  b ∈ boletos s -> Boleto.numero_boleto b = n -> Boleto.estado b = "disponible" ->
  (forall p, p ∈ participantes s -> Some (Participante.email p) <> form !! "email") ->
  form !! "nombre" = None \/ form !! "email" = None \/ form !! "telefono" = None ->
  result_of (run (apartar environ POST form utcnow n) s) = Raise IntegrityError
  /\ store_of (run (apartar environ POST form utcnow n) s) = s
  /\ commits (trace_of (run (apartar environ POST form utcnow n) s)) = [].
Proof.
  intros Hnd Hb <- Hd Hnew Hmiss.
  erewrite run_apartar_incompleto; [done | | done | | done].
  - by apply (head_filter_unique Boleto.numero_boleto).
  - apply head_filter_None. intros p Hp. by apply Hnew.
Qed.

Lemma incomplete_form_reserves_nothing_witness :
  NoDup (Boleto.numero_boleto <$> boletos cuatro_boletos)
  /\ result_of (run (apartar ∅ POST form_vacio 5000 3) cuatro_boletos)
     = Raise IntegrityError
  /\ store_of (run (apartar ∅ POST (form_solo_email "luis@x.com") 5000 3) cuatro_boletos)
     = cuatro_boletos.
Proof.
  assert (Hnd : NoDup (Boleto.numero_boleto <$> boletos cuatro_boletos))
    by (apply (bool_decide_unpack _); vm_compute; exact I).
  assert (Hb : Boleto.mk 4 3 "disponible" None None ∈ boletos cuatro_boletos)
    by (apply (bool_decide_unpack _); vm_compute; exact I).
  split; [exact Hnd|]. split.
  - apply (incomplete_form_reserves_nothing ∅ form_vacio 5000 3 cuatro_boletos _
             Hnd Hb eq_refl eq_refl).
    + apply Forall_forall. apply (bool_decide_unpack _); vm_compute; exact I.
    + left. reflexivity.
  - apply (incomplete_form_reserves_nothing ∅ (form_solo_email "luis@x.com") 5000 3
             cuatro_boletos _ Hnd Hb eq_refl eq_refl).
    + apply Forall_forall. apply (bool_decide_unpack _); vm_compute; exact I.
    + left. reflexivity.
Defined.

(** X17.  When the email of the form is that of a participant, what the
    POST does to the store depends on nothing else in the form: two forms
    with that email, whatever their names and phones, present or not, leave
    the same store. *)
Theorem known_email_ignores_other_fields environ (form form' : gmap string string)
    (utcnow : datetime) (n : Z) (s : Store) (p : Participante.t) :
  p ∈ participantes s ->
  form !! "email" = Some (Participante.email p) ->
  form' !! "email" = Some (Participante.email p) ->
  store_of (run (apartar environ POST form utcnow n) s)
  = store_of (run (apartar environ POST form' utcnow n) s).
Proof.
  intros Hp He He'.
  destruct (head (filter (fun b => Boleto.numero_boleto b = n) (boletos s)))
    as [b|] eqn:Hq.
  2: { by rewrite !run_apartar_404. }
  destruct (decide (Boleto.estado b = "disponible")) as [Hd|Hd].
  2: { by erewrite !run_apartar_conflict. }
  destruct (head (filter (fun q => Some (Participante.email q)
                                   = Some (Participante.email p)) (participantes s)))
    as [q|] eqn:Hqq.
  - erewrite (run_apartar_existente _ form) by (rewrite ?He; done).
    by erewrite (run_apartar_existente _ form') by (rewrite ?He'; done).
  - exfalso. by apply (proj1 (head_filter_None _ _) Hqq p).
Qed.

Lemma known_email_ignores_other_fields_witness :
  Participante.mk 1 "Ana" "ana@x.com" "555" ∈ participantes cuatro_boletos
  /\ store_of (run (apartar ∅ POST (form_solo_email "ana@x.com") 5000 3) cuatro_boletos)
     = store_of (run (apartar ∅ POST (form_of (mkInfo "Anita" "ana@x.com" "999")) 5000 3)
                   cuatro_boletos).
Proof.
  assert (Hp : Participante.mk 1 "Ana" "ana@x.com" "555" ∈ participantes cuatro_boletos)
    by (apply (bool_decide_unpack _); vm_compute; exact I).
  split; [exact Hp|].
  exact (known_email_ignores_other_fields ∅ (form_solo_email "ana@x.com")
           (form_of (mkInfo "Anita" "ana@x.com" "999")) 5000 3 cuatro_boletos _
           Hp eq_refl eq_refl).
Defined.

(** X18.  A ticket the sweep released is back in the pool: in a store that
    meets the schema's constraints, after a pass of the sweep a reservation
    of the number of a ticket that was expired succeeds. *)
Theorem released_ticket_can_be_reserved environ (minutos : Z) (utcnow utcnow' : datetime)
    (n : Z) (info : ParticipantInfo) (s : Store) (b : Boleto.t) :
  wf s ->
  b ∈ boletos s -> Boleto.numero_boleto b = n ->
  expirado minutos utcnow b ->
  reserve_result
    (result_of (Reserve environ n info utcnow'
                  (store_of (run (liberar_con_limite minutos utcnow) s)))) = Reserved.
Proof.
  intros [Hid Hnum _ _] Hb Hn He. rewrite run_liberar_con_limite.
  cbn [store_of fst snd].
  apply (Reserve_of_available _ _ _ _ _ (fila_liberada b)); cbn [boletos]; try done.
  - by rewrite liberar_filas_numeros.
  - rewrite liberar_filas_NoDup by done.
    apply (list_elem_of_fmap_2' _ _ b); [done|].
    rewrite decide_True; [done | by apply seleccion_expirado].
Qed.

Lemma released_ticket_can_be_reserved_witness :
  wf cuatro_boletos
  /\ expirado 120 (timedelta 200) (Boleto.mk 1 0 "apartado" (Some (timedelta 79)) (Some 1))
  /\ reserve_result
       (result_of (Reserve ∅ 0 (mkInfo "Luis" "luis@x.com" "777") (timedelta 201)
                     (store_of (run (liberar_con_limite 120 (timedelta 200))
                                  cuatro_boletos)))) = Reserved.
Proof.
  assert (Hwf : wf cuatro_boletos)
    by (apply (bool_decide_unpack _); vm_compute; exact I).
  assert (He : expirado 120 (timedelta 200)
                 (Boleto.mk 1 0 "apartado" (Some (timedelta 79)) (Some 1)))
    by (apply (bool_decide_unpack _); vm_compute; exact I).
  split; [exact Hwf|]. split; [exact He|].
  apply (released_ticket_can_be_reserved ∅ 120 (timedelta 200) (timedelta 201) 0
           (mkInfo "Luis" "luis@x.com" "777") cuatro_boletos
           (Boleto.mk 1 0 "apartado" (Some (timedelta 79)) (Some 1)) Hwf);
    [|reflexivity|exact He].
  apply (bool_decide_unpack _); vm_compute; exact I.
Defined.

(** X19.  The bounds of the pool: after the start-up block has filled an
    empty table, a reservation succeeds for every number from 0 to 99 and is
    answered 404 for every other number the store can bind. *)
Theorem fresh_pool_bounds environ (n : Z) (info : ParticipantInfo)
    (utcnow : datetime) (s : Store) :
  boletos s = [] ->
  sqlite_integer n ->
  reserve_result (result_of (Reserve environ n info utcnow (store_of (run startup s))))
  = if decide (0 <= n < 100) then Reserved else NotFound.
Proof.
  intros Hempty _. unfold startup. rewrite run_bootstrap_empty by done.
  cbn [store_of fst snd]. destruct (decide (0 <= n < 100)) as [Hin|Hout].
  - apply (Reserve_of_available _ _ _ _ _ (fila_nueva n)); cbn [boletos]; try done.
    + rewrite <- list_fmap_compose. erewrite (list_fmap_ext _ id) by done.
      rewrite list_fmap_id. apply NoDup_seqZ.
    + apply list_elem_of_fmap_2. apply elem_of_seqZ. lia.
  - apply Reserve_of_missing. cbn [boletos]. intros b Hb.
    apply list_elem_of_fmap in Hb as (i & -> & Hi). apply elem_of_seqZ in Hi.
    cbn. lia.
Qed.

Lemma fresh_pool_bounds_witness :
  boletos empty_store = []
  /\ sqlite_integer 99 /\ sqlite_integer 100 /\ sqlite_integer (-1)
  /\ reserve_result (result_of (Reserve ∅ 99 ana 1000 (store_of (run startup empty_store))))
     = Reserved
  /\ reserve_result (result_of (Reserve ∅ 100 ana 1000 (store_of (run startup empty_store))))
     = NotFound
  /\ reserve_result (result_of (Reserve ∅ (-1) ana 1000 (store_of (run startup empty_store))))
     = NotFound.
Proof.
  assert (H99 : sqlite_integer 99)
    by (apply (bool_decide_unpack _); vm_compute; exact I).
  assert (H100 : sqlite_integer 100)
    by (apply (bool_decide_unpack _); vm_compute; exact I).
  assert (Hm1 : sqlite_integer (-1))
    by (apply (bool_decide_unpack _); vm_compute; exact I).
  split; [reflexivity|]. split; [exact H99|]. split; [exact H100|]. split; [exact Hm1|].
  split; [|split].
  - exact (fresh_pool_bounds ∅ 99 ana 1000 empty_store eq_refl H99).
  - exact (fresh_pool_bounds ∅ 100 ana 1000 empty_store eq_refl H100).
  - exact (fresh_pool_bounds ∅ (-1) ana 1000 empty_store eq_refl Hm1).
Defined.

(** What a successful reservation of the free ticket [b] leaves. *)
Lemma Reserve_available_store environ n info utcnow s b :
  wf s -> b ∈ boletos s -> Boleto.numero_boleto b = n ->
  Boleto.estado b = "disponible" ->
  exists p,
    p ∈ participantes (store_of (Reserve environ n info utcnow s))
    /\ Participante.email p = info_email info
    /\ boletos (store_of (Reserve environ n info utcnow s))
       = update_rows (Boleto.id b) (fila_apartada (Participante.id p) utcnow) (boletos s).
Proof.
  intros [Hid Hnum _ _] Hb Hn Hd.
  destruct (Reserve_cases environ n info utcnow s)
    as [[Hno ->] | [(b0 & Hq & Hd0 & ->) | (b0 & p & ps' & tr & Hq & Hd0 & Hp & -> & _)]];
    cbn [store_of fst snd participantes boletos];
    try (apply head_filter_elem in Hq as [Hin Hn0]);
    try (assert (b = b0) as -> by (apply (NoDup_fmap_eq Boleto.numero_boleto (boletos s));
                                   congruence)).
  - by destruct (Hno b Hb).
  - done.
  - exists p. split; [|split; [|done]].
    + destruct Hp as [(Hp & _ & ->) | (_ & _ & ->)]; [done|].
      apply elem_of_app. right. by left.
    + destruct Hp as [(_ & He & _) | (_ & -> & _)]; done.
Qed.

(** X20.  The whole sale: in a store that meets the schema's constraints,
    reserving a free ticket and then confirming it leaves exactly that row
    changed, 'vendido', dated with the time of the reservation and owned by a
    participant that has the email of the reservation. *)
Theorem reserve_then_confirm environ (n : Z) (info : ParticipantInfo)
    (utcnow : datetime) (s : Store) (b : Boleto.t) :
  wf s ->
  b ∈ boletos s -> Boleto.numero_boleto b = n -> Boleto.estado b = "disponible" ->
  exists p,
    p ∈ participantes
          (store_of (run (confirmar environ (Boleto.id b) (ADMIN_SECRET_CODE environ))
                       (store_of (Reserve environ n info utcnow s))))
    /\ Participante.email p = info_email info
    /\ boletos
         (store_of (run (confirmar environ (Boleto.id b) (ADMIN_SECRET_CODE environ))
                      (store_of (Reserve environ n info utcnow s))))
       = (fun x => if decide (x = b)
                   then Boleto.mk (Boleto.id b) (Boleto.numero_boleto b) "vendido"
                          (Some utcnow) (Some (Participante.id p))
                   else x) <$> boletos s.
Proof.
  intros Hwf Hb Hn Hd.
  destruct (Reserve_available_store environ n info utcnow s b Hwf Hb Hn Hd)
    as (p & Hp & He & Hbs).
  destruct Hwf as [Hid _ _ _]. exists p.
  erewrite (run_confirmar_ok _ _ _ (fila_apartada (Participante.id p) utcnow b)).
  2: { rewrite Hbs.
       apply (head_filter_unique Boleto.id _ (fila_apartada (Participante.id p) utcnow b)).
       - by rewrite update_rows_ids.
       - by apply update_rows_elem_of. }
  cbn [store_of fst snd participantes boletos]. split; [done|]. split; [done|].
  rewrite Hbs. change (Boleto.id (fila_apartada (Participante.id p) utcnow b))
    with (Boleto.id b).
  rewrite update_rows_twice by done. rewrite update_rows_NoDup by done.
  apply list_fmap_ext. intros i x _. by destruct (decide (x = b)) as [->|].
Qed.

Lemma reserve_then_confirm_witness :
  wf cuatro_boletos
  /\ exists p,
       p ∈ participantes
             (store_of (run (confirmar ∅ 4 (ADMIN_SECRET_CODE ∅))
                          (store_of (Reserve ∅ 3 ana 5000 cuatro_boletos))))
       /\ Participante.email p = "ana@x.com"
       /\ boletos (store_of (run (confirmar ∅ 4 (ADMIN_SECRET_CODE ∅))
                               (store_of (Reserve ∅ 3 ana 5000 cuatro_boletos))))
          = (fun x => if decide (x = Boleto.mk 4 3 "disponible" None None)
                      then Boleto.mk 4 3 "vendido" (Some 5000) (Some (Participante.id p))
                      else x) <$> boletos cuatro_boletos.
Proof.
  assert (Hwf : wf cuatro_boletos)
    by (apply (bool_decide_unpack _); vm_compute; exact I).
  assert (Hb : Boleto.mk 4 3 "disponible" None None ∈ boletos cuatro_boletos)
    by (apply (bool_decide_unpack _); vm_compute; exact I).
  split; [exact Hwf|].
  exact (reserve_then_confirm ∅ 3 ana 5000 cuatro_boletos _ Hwf Hb eq_refl eq_refl).
Defined.

(** X21.  A reservation is what the administrator sees: in a store that
    meets the schema's constraints, after a successful reservation of number
    [n] the administrator's page lists a ticket with that number. *)
Theorem reserved_ticket_is_listed environ (n : Z) (info : ParticipantInfo)
    (utcnow : datetime) (s : Store) (b : Boleto.t) :
  wf s ->
  b ∈ boletos s -> Boleto.numero_boleto b = n -> Boleto.estado b = "disponible" ->
  exists l b',
    result_of (run (admin environ (ADMIN_SECRET_CODE environ))
                 (store_of (Reserve environ n info utcnow s)))
    = Ok (render_admin l (ADMIN_SECRET_CODE environ))
    /\ b' ∈ l /\ Boleto.numero_boleto b' = n /\ Boleto.fecha_apartado b' = Some utcnow.
Proof.
  intros Hwf Hb Hn Hd.
  destruct (Reserve_available_store environ n info utcnow s b Hwf Hb Hn Hd)
    as (p & _ & _ & Hbs).
  rewrite run_admin_ok. cbn [result_of fst snd].
  eexists _, (fila_apartada (Participante.id p) utcnow b). split; [done|].
  split; [|done]. rewrite merge_sort_Permutation.
  apply list_elem_of_filter. split; [done|]. rewrite Hbs. by apply update_rows_elem_of.
Qed.

Lemma reserved_ticket_is_listed_witness :
  wf cuatro_boletos
  /\ exists l b',
       result_of (run (admin ∅ "admin123") (store_of (Reserve ∅ 3 ana 5000 cuatro_boletos)))
       = Ok (render_admin l "admin123")
       /\ b' ∈ l /\ Boleto.numero_boleto b' = 3 /\ Boleto.fecha_apartado b' = Some 5000.
Proof.
  assert (Hwf : wf cuatro_boletos)
    by (apply (bool_decide_unpack _); vm_compute; exact I).
  assert (Hb : Boleto.mk 4 3 "disponible" None None ∈ boletos cuatro_boletos)
    by (apply (bool_decide_unpack _); vm_compute; exact I).
  split; [exact Hwf|].
  exact (reserved_ticket_is_listed ∅ 3 ana 5000 cuatro_boletos _ Hwf Hb eq_refl eq_refl).
Defined.


